(** * Hard links and symbolic links of the FUSE front end (package filesys)

    A shallow embedding of [Dir.Link], [Dir.Symlink] and [File.Readlink]
    and the properties the design document states about them.

    Go pointers are addresses into explicit heaps, because [Link] shares the
    [*FuseAttributes] of the source entry with the entry it creates, and the
    identifier translation writes through that shared pointer.  Remote calls
    and writes to the local metadata cache are recorded, in order, in a
    trace.  The collaborators whose code is outside this package (the filer,
    the lazy loader, the clock, the random source, the identifier mapper)
    are oracles. *)

From Stdlib Require Import ZArith Lia.
From Stdlib.Strings Require Import Byte.
From stdpp Require Import base option list strings gmap.

Local Open Scope Z_scope.

(** ** Go values *)

Module Go.

(** [int32] arithmetic wraps around. *)
Definition wrap_int32 (z : Z) : Z := (z + 2 ^ 31) mod 2 ^ 32 - 2 ^ 31.

(** [os.ModeSymlink], bit 27 of an [os.FileMode]. *)
Definition ModeSymlink : Z := Z.shiftl 1 27.

(** The operator [&^] (bit clear). *)
Definition and_not (a b : Z) : Z := Z.ldiff a b.

(** [len(s) == 0] on a byte slice, nil or empty. *)
Definition is_empty (s : list byte) : bool :=
  match s with [] => true | _ => false end.

End Go.

(** The error values that reach the caller: [fuse.EPERM], [fuse.EIO],
    [fuse.Errno(syscall.EINVAL)], and whatever a collaborator reports. *)
Inductive Error :=
| EPERM
| EIO
| EINVAL
| ErrOther (msg : string).

Definition loc := nat.

(** ** Protocol-buffer messages *)

Module filer_pb.

(** Opaque to this package; three of its fields are kept. *)
Record FileChunk := {
  FileId : string;
  Offset : Z;
  Size : Z;
}.

(** The fields of [FuseAttributes] this package reads or writes. *)
Record FuseAttributes := {
  Mtime : Z;
  Crtime : Z;
  FileMode : Z;
  Uid : Z;
  Gid : Z;
  SymlinkTarget : string;
}.

(** [Attributes] is a pointer.  With [ptr := loc] this is the object in
    memory; with [ptr := FuseAttributes] it is the message as serialised,
    the pointer followed. *)
Record Entry (ptr : Type) := {
  Name : string;
  IsDirectory : bool;
  Attributes : option ptr;
  Chunks : list FileChunk;
  Extended : gmap string (list byte);
  HardLinkId : list byte;
  HardLinkCounter : Z;
}.
Arguments Name {ptr} _.
Arguments IsDirectory {ptr} _.
Arguments Attributes {ptr} _.
Arguments Chunks {ptr} _.
Arguments Extended {ptr} _.
Arguments HardLinkId {ptr} _.
Arguments HardLinkCounter {ptr} _.

(** [UpdateEntryRequest] and [CreateEntryRequest] have the same shape. *)
Record EntryRequest := {
  Directory : string;
  Entry_ : loc;
  Signatures : list Z;
}.

End filer_pb.

Abbreviation FuseAttributes := filer_pb.FuseAttributes.
Abbreviation EntryObj := (filer_pb.Entry loc).
Abbreviation EntryMsg := (filer_pb.Entry filer_pb.FuseAttributes).

(** ** Nodes *)

(** A directory node, known here by what [FullPath()] returns. *)
Record Dir := { FullPath : string }.

(** A file node: [Name], [dir] and the resident [entry] (nil when not
    loaded). *)
Record File := {
  fName : string;
  fDir : Dir;
  fEntry : option loc;
}.

(** The dynamic type behind an [fs.Node]. *)
Inductive Node :=
| NodeFile (f : File)
| NodeDir (d : Dir).

(** ** The world *)

(** What the filer sees of a call. *)
Inductive RemoteCall :=
| CallUpdateEntry (directory : string) (e : EntryMsg) (signatures : list Z)
| CallCreateEntry (directory : string) (e : EntryMsg) (signatures : list Z).

(** A [filer.Entry] as the cache stores it, under its full path. *)
Record CachedEntry := {
  cFullPath : string;
  cDirectory : string;
  cEntry : EntryMsg;
}.

Inductive Event :=
| Remote (call : RemoteCall) (reply : option Error)
| CacheUpdate (e : CachedEntry)
| CacheInsert (e : CachedEntry).

Record World := {
  attrHeap : list FuseAttributes;
  entryHeap : list EntryObj;
  metaCache : gmap string CachedEntry;
  trace : list Event;
  randomPos : nat;
  clockPos : nat;
}.

(** Outcome of the lazy loader for one node. *)
Inductive LoadOutcome :=
| LoadError (e : Error)
| LoadResident
| LoadFetched (e : option EntryMsg).

(** Modelled from the spec: [UidGidMapper] and its two directions are not
    part of this package's sources.  The design document describes it as a
    pure mapping of owner and group identifiers between the local and the
    filer's identifier space. *)
Record UidGidMapper := {
  LocalToFiler : Z -> Z -> Z * Z;
  FilerToLocal : Z -> Z -> Z * Z;
}.

(** [wfs.option] and [wfs.signature], flattened. *)
Record WFS := {
  ReadOnly : bool;
  Umask : Z;
  mapper : UidGidMapper;
  signature : Z;
}.

Record Oracles := {
  filer : RemoteCall -> option Error;
  random : nat -> byte;
  clock : nat -> Z;
  loader : File -> LoadOutcome;
}.

(** ** Computations: state, panics *)

(** A computation returns a value, or panics, each in some world.  [Stuck]
    is a read through an address outside the heaps, which no Go program
    reaches; it keeps the heap operations total. *)
Inductive Res (A : Type) :=
| Done (a : A) (w : World)
| Panic (w : World)
| Stuck.
Arguments Done {A} _ _.
Arguments Panic {A} _.
Arguments Stuck {A}.

Definition M (A : Type) : Type := World -> Res A.

Definition ret {A} (a : A) : M A := fun w => Done a w.

Definition bind {A B} (m : M A) (k : A -> M B) : M B :=
  fun w =>
    match m w with
    | Done a w' => k a w'
    | Panic w' => Panic w'
    | Stuck => Stuck
    end.

Notation "'let*' x ':=' c1 'in' c2" := (bind c1 (fun x => c2))
  (at level 10, x name, c1 at level 100, c2 at level 200, only parsing).

Definition panic {A} : M A := fun w => Panic w.

(** [defer cleanup] in front of [body]: the cleanup runs when the body
    returns and when it panics. *)
Definition with_defer {A} (cleanup : M unit) (body : M A) : M A :=
  fun w =>
    match body w with
    | Done a w1 =>
        match cleanup w1 with
        | Done _ w2 => Done a w2
        | Panic w2 => Panic w2
        | Stuck => Stuck
        end
    | Panic w1 =>
        match cleanup w1 with
        | Done _ w2 => Panic w2
        | Panic w2 => Panic w2
        | Stuck => Stuck
        end
    | Stuck => Stuck
    end.

Definition emit (ev : Event) : M unit :=
  fun w =>
    Done tt {| attrHeap := attrHeap w; entryHeap := entryHeap w;
               metaCache := metaCache w; trace := trace w ++ [ev];
               randomPos := randomPos w; clockPos := clockPos w |}.

(** *** The heaps *)

Definition read_entry (p : loc) : M EntryObj :=
  fun w => match entryHeap w !! p with
           | Some e => Done e w
           | None => Stuck
           end.

Definition write_entry (p : loc) (e : EntryObj) : M unit :=
  fun w =>
    match entryHeap w !! p with
    | Some _ =>
        Done tt {| attrHeap := attrHeap w; entryHeap := <[p := e]> (entryHeap w);
                   metaCache := metaCache w; trace := trace w;
                   randomPos := randomPos w; clockPos := clockPos w |}
    | None => Stuck
    end.

Definition new_entry (e : EntryObj) : M loc :=
  fun w =>
    Done (length (entryHeap w))
         {| attrHeap := attrHeap w; entryHeap := entryHeap w ++ [e];
            metaCache := metaCache w; trace := trace w;
            randomPos := randomPos w; clockPos := clockPos w |}.

Definition read_attrs (a : loc) : M FuseAttributes :=
  fun w => match attrHeap w !! a with
           | Some x => Done x w
           | None => Stuck
           end.

Definition write_attrs (a : loc) (x : FuseAttributes) : M unit :=
  fun w =>
    match attrHeap w !! a with
    | Some _ =>
        Done tt {| attrHeap := <[a := x]> (attrHeap w); entryHeap := entryHeap w;
                   metaCache := metaCache w; trace := trace w;
                   randomPos := randomPos w; clockPos := clockPos w |}
    | None => Stuck
    end.

Definition new_attrs (x : FuseAttributes) : M loc :=
  fun w =>
    Done (length (attrHeap w))
         {| attrHeap := attrHeap w ++ [x]; entryHeap := entryHeap w;
            metaCache := metaCache w; trace := trace w;
            randomPos := randomPos w; clockPos := clockPos w |}.

(** The message an entry object serialises to: the attributes pointer is
    followed. *)
Definition message (e : EntryObj) (x : option FuseAttributes) : EntryMsg :=
  {| filer_pb.Name := filer_pb.Name e;
     filer_pb.IsDirectory := filer_pb.IsDirectory e;
     filer_pb.Attributes := x;
     filer_pb.Chunks := filer_pb.Chunks e;
     filer_pb.Extended := filer_pb.Extended e;
     filer_pb.HardLinkId := filer_pb.HardLinkId e;
     filer_pb.HardLinkCounter := filer_pb.HardLinkCounter e |}.

Definition deref_attrs (h : list FuseAttributes) (e : EntryObj)
  : option EntryMsg :=
  match filer_pb.Attributes e with
  | None => Some (message e None)
  | Some a =>
      match h !! a with
      | Some x => Some (message e (Some x))
      | None => None
      end
  end.

Definition message_at (w : World) (p : loc) : option EntryMsg :=
  match entryHeap w !! p with
  | Some e => deref_attrs (attrHeap w) e
  | None => None
  end.

Definition serialise (p : loc) : M EntryMsg :=
  fun w => match message_at w p with
           | Some m => Done m w
           | None => Stuck
           end.

(** ** The package *)

(** [fuse.LinkRequest] and [fuse.SymlinkRequest], the fields read here. *)
Record LinkRequest := { NewName : string }.

Record SymlinkRequest := {
  sNewName : string;
  Target : string;
  sUid : Z;
  sGid : Z;
}.

Definition HARD_LINK_MARKER : byte := x01.

(** Modelled from the spec: [util.NewFullPath], the cache key
    "directory/name". *)
Definition NewFullPath (directory name : string) : string :=
  (directory +:+ "/" +:+ name)%string.

Definition set_ids (x : FuseAttributes) (ids : Z * Z) : FuseAttributes :=
  {| filer_pb.Mtime := filer_pb.Mtime x;
     filer_pb.Crtime := filer_pb.Crtime x;
     filer_pb.FileMode := filer_pb.FileMode x;
     filer_pb.Uid := fst ids;
     filer_pb.Gid := snd ids;
     filer_pb.SymlinkTarget := filer_pb.SymlinkTarget x |}.

(** The owner and group of [x] sent through one direction of the mapper. *)
Definition translate (f : Z -> Z -> Z * Z) (x : FuseAttributes) : FuseAttributes :=
  set_ids x (f (filer_pb.Uid x) (filer_pb.Gid x)).

Definition set_hardlink (e : EntryObj) (id : list byte) (counter : Z) : EntryObj :=
  {| filer_pb.Name := filer_pb.Name e;
     filer_pb.IsDirectory := filer_pb.IsDirectory e;
     filer_pb.Attributes := filer_pb.Attributes e;
     filer_pb.Chunks := filer_pb.Chunks e;
     filer_pb.Extended := filer_pb.Extended e;
     filer_pb.HardLinkId := id;
     filer_pb.HardLinkCounter := counter |}.

Definition set_fEntry (f : File) (p : option loc) : File :=
  {| fName := fName f; fDir := fDir f; fEntry := p |}.

Section Filesys.

Variable wfs : WFS.
Variable env : Oracles.

(** Modelled from the spec: [util.RandomBytes] is not part of this
    package's sources; it yields the next [n] bytes of the random
    source. *)
Definition RandomBytes (n : nat) : M (list byte) :=
  fun w =>
    Done (map (random env) (seq (randomPos w) n))
         {| attrHeap := attrHeap w; entryHeap := entryHeap w;
            metaCache := metaCache w; trace := trace w;
            randomPos := (randomPos w + n)%nat; clockPos := clockPos w |}.

(** [time.Now().Unix()]: the next reading of the clock. *)
Definition time_Now_Unix : M Z :=
  fun w =>
    Done (clock env (clockPos w))
         {| attrHeap := attrHeap w; entryHeap := entryHeap w;
            metaCache := metaCache w; trace := trace w;
            randomPos := randomPos w; clockPos := S (clockPos w) |}.

(** Modelled from the spec: [wfs.mapPbIdFromLocalToFiler] is not part of
    this package's sources.  It rewrites the owner and group of the
    entry's attributes, in place, to the filer's identifier space. *)
Definition mapPbIdFromLocalToFiler (p : loc) : M unit :=
  let* e := read_entry p in
  match filer_pb.Attributes e with
  | None => ret tt
  | Some a =>
      let* x := read_attrs a in
      write_attrs a (translate (LocalToFiler (mapper wfs)) x)
  end.

(** Modelled from the spec: [wfs.mapPbIdFromFilerToLocal], the reverse
    direction, likewise not part of this package's sources. *)
Definition mapPbIdFromFilerToLocal (p : loc) : M unit :=
  let* e := read_entry p in
  match filer_pb.Attributes e with
  | None => ret tt
  | Some a =>
      let* x := read_attrs a in
      write_attrs a (translate (FilerToLocal (mapper wfs)) x)
  end.

(** [filer_pb.UpdateEntry(client, request)]: one round trip; the filer
    decides the reply. *)
Definition filer_pb_UpdateEntry (req : filer_pb.EntryRequest) : M (option Error) :=
  let* m := serialise (filer_pb.Entry_ req) in
  let call := CallUpdateEntry (filer_pb.Directory req) m (filer_pb.Signatures req) in
  let* _ := emit (Remote call (filer env call)) in
  ret (filer env call).

(** [filer_pb.CreateEntry(client, request)]. *)
Definition filer_pb_CreateEntry (req : filer_pb.EntryRequest) : M (option Error) :=
  let* m := serialise (filer_pb.Entry_ req) in
  let call := CallCreateEntry (filer_pb.Directory req) m (filer_pb.Signatures req) in
  let* _ := emit (Remote call (filer env call)) in
  ret (filer env call).

(** Modelled from the spec: [filer.FromPbEntry] copies the message into
    the cache's entry type, keyed by its full path. *)
Definition FromPbEntry (directory : string) (p : loc) : M CachedEntry :=
  let* m := serialise p in
  ret {| cFullPath := NewFullPath directory (filer_pb.Name m);
         cDirectory := directory;
         cEntry := m |}.

Definition store (c : CachedEntry) : M unit :=
  fun w =>
    Done tt {| attrHeap := attrHeap w; entryHeap := entryHeap w;
               metaCache := <[cFullPath c := c]> (metaCache w);
               trace := trace w;
               randomPos := randomPos w; clockPos := clockPos w |}.

(** Modelled from the spec: [metaCache.UpdateEntry] and
    [metaCache.InsertEntry] write the local mirror under the entry's full
    path and do not fail. *)
Definition metaCache_UpdateEntry (c : CachedEntry) : M unit :=
  let* _ := emit (CacheUpdate c) in store c.

Definition metaCache_InsertEntry (c : CachedEntry) : M unit :=
  let* _ := emit (CacheInsert c) in store c.

(** Modelled from the spec: [wfs.WithFilerClient] hands a client to the
    callback for the duration of one call of it. *)
Definition WithFilerClient (fn : M (option Error)) : M (option Error) := fn.

(** Modelled from the spec: [file.maybeLoadEntry], the lazy load.  It
    reports an error, or leaves the resident entry, or replaces it by the
    entry just fetched (which may be nil).  The node after the load comes
    first in the result. *)
Definition maybeLoadEntry (f : File) : M (File * option loc * option Error) :=
  match loader env f with
  | LoadError e => ret (f, None, Some e)
  | LoadResident => ret (f, fEntry f, None)
  | LoadFetched None => ret (set_fEntry f None, None, None)
  | LoadFetched (Some m) =>
      let* a := match filer_pb.Attributes m with
                | None => ret None
                | Some x => let* a := new_attrs x in ret (Some a)
                end in
      let* p := new_entry
                  {| filer_pb.Name := filer_pb.Name m;
                     filer_pb.IsDirectory := filer_pb.IsDirectory m;
                     filer_pb.Attributes := a;
                     filer_pb.Chunks := filer_pb.Chunks m;
                     filer_pb.Extended := filer_pb.Extended m;
                     filer_pb.HardLinkId := filer_pb.HardLinkId m;
                     filer_pb.HardLinkCounter := filer_pb.HardLinkCounter m |} in
      ret (set_fEntry f (Some p), Some p, None)
  end.

Definition getEntry (f : File) : option loc := fEntry f.

(** Modelled from the spec: [dir.newFile] constructs a file node around
    the entry it is given. *)
Definition newFile (dir : Dir) (name : string) (entry : loc) : Node :=
  NodeFile {| fName := name; fDir := dir; fEntry := Some entry |}.

(** *** Link *)

(** "update old file to hardlink mode": a source entry without
    [HardLinkId] receives 16 random bytes and the marker and starts at
    counter 1; the counter is then incremented. *)
Definition hardlink_mode (oldEntry : loc) : M unit :=
  let* e := read_entry oldEntry in
  let* e1 :=
    if Go.is_empty (filer_pb.HardLinkId e) then
      let* r := RandomBytes 16 in
      ret (set_hardlink e (r ++ [HARD_LINK_MARKER]) 1)
    else ret e in
  write_entry oldEntry
    (set_hardlink e1 (filer_pb.HardLinkId e1)
                  (Go.wrap_int32 (filer_pb.HardLinkCounter e1 + 1))).

(** The callback [Link] passes to [WithFilerClient]. *)
Definition link_callback (updateOldEntryRequest request : filer_pb.EntryRequest)
  : M (option Error) :=
  let* _ := mapPbIdFromLocalToFiler (filer_pb.Entry_ request) in
  with_defer (mapPbIdFromFilerToLocal (filer_pb.Entry_ request))
    (let* err := filer_pb_UpdateEntry updateOldEntryRequest in
     match err with
     | Some _ => ret (Some EIO)
     | None =>
         let* c := FromPbEntry (filer_pb.Directory updateOldEntryRequest)
                               (filer_pb.Entry_ updateOldEntryRequest) in
         let* _ := metaCache_UpdateEntry c in
         let* err := filer_pb_CreateEntry request in
         match err with
         | Some _ => ret (Some EIO)
         | None =>
             let* c := FromPbEntry (filer_pb.Directory request)
                                   (filer_pb.Entry_ request) in
             let* _ := metaCache_InsertEntry c in
             ret None
         end
     end).

Definition Link (dir : Dir) (req : LinkRequest) (old : Node)
  : M (option Node * option Error) :=
  if ReadOnly wfs then ret (None, Some EPERM) else
  (* oldFile, ok := old.( *File); a failed assertion is only logged *)
  let oldFile := match old with NodeFile f => Some f | NodeDir _ => None end in
  (* the arguments of the next log line read oldFile.dir and oldFile.Name *)
  match oldFile with
  | None => panic
  | Some oldFile =>
      let* r := maybeLoadEntry oldFile in
      let oldFile := r.1.1 in
      match r.2 with
      | Some err => ret (None, Some err)
      | None =>
          match getEntry oldFile with
          | None => ret (None, Some EIO)
          | Some oldEntry =>
              let* _ := hardlink_mode oldEntry in
              let updateOldEntryRequest :=
                {| filer_pb.Directory := FullPath (fDir oldFile);
                   filer_pb.Entry_ := oldEntry;
                   filer_pb.Signatures := [signature wfs] |} in
              let* o := read_entry oldEntry in
              let* newEntry :=
                new_entry
                  {| filer_pb.Name := NewName req;
                     filer_pb.IsDirectory := false;
                     filer_pb.Attributes := filer_pb.Attributes o;
                     filer_pb.Chunks := filer_pb.Chunks o;
                     filer_pb.Extended := filer_pb.Extended o;
                     filer_pb.HardLinkId := filer_pb.HardLinkId o;
                     filer_pb.HardLinkCounter := filer_pb.HardLinkCounter o |} in
              let request :=
                {| filer_pb.Directory := FullPath dir;
                   filer_pb.Entry_ := newEntry;
                   filer_pb.Signatures := [signature wfs] |} in
              let* err :=
                WithFilerClient (link_callback updateOldEntryRequest request) in
              match err with
              | Some _ => ret (None, Some EIO)
              | None =>
                  match newFile dir (NewName req) newEntry with
                  | NodeDir _ => panic
                  | NodeFile newFile =>
                      let* r := maybeLoadEntry newFile in
                      match r.2 with
                      | Some err => ret (None, Some err)
                      | None => ret (Some (NodeFile r.1.1), None)
                      end
                  end
              end
          end
      end
  end.

(** *** Symlink *)

(** The callback [Symlink] passes to [WithFilerClient]. *)
Definition symlink_callback (request : filer_pb.EntryRequest) : M (option Error) :=
  let* _ := mapPbIdFromLocalToFiler (filer_pb.Entry_ request) in
  with_defer (mapPbIdFromFilerToLocal (filer_pb.Entry_ request))
    (let* err := filer_pb_CreateEntry request in
     match err with
     | Some _ => ret (Some EIO)
     | None =>
         let* c := FromPbEntry (filer_pb.Directory request)
                               (filer_pb.Entry_ request) in
         let* _ := metaCache_InsertEntry c in
         ret None
     end).

(** The file mode of a new symbolic link:
    [(os.FileMode(0777) | os.ModeSymlink) &^ Umask]. *)
Definition symlink_mode : Z :=
  Go.and_not (Z.lor 511 Go.ModeSymlink) (Umask wfs).

Definition Symlink (dir : Dir) (req : SymlinkRequest)
  : M (option Node * option Error) :=
  if ReadOnly wfs then ret (None, Some EPERM) else
  let* mtime := time_Now_Unix in
  let* crtime := time_Now_Unix in
  let* attributes :=
    new_attrs {| filer_pb.Mtime := mtime;
                 filer_pb.Crtime := crtime;
                 filer_pb.FileMode := symlink_mode;
                 filer_pb.Uid := sUid req;
                 filer_pb.Gid := sGid req;
                 filer_pb.SymlinkTarget := Target req |} in
  let* entry :=
    new_entry {| filer_pb.Name := sNewName req;
                 filer_pb.IsDirectory := false;
                 filer_pb.Attributes := Some attributes;
                 filer_pb.Chunks := [];
                 filer_pb.Extended := ∅;
                 filer_pb.HardLinkId := [];
                 filer_pb.HardLinkCounter := 0 |} in
  let request :=
    {| filer_pb.Directory := FullPath dir;
       filer_pb.Entry_ := entry;
       filer_pb.Signatures := [signature wfs] |} in
  let* err := WithFilerClient (symlink_callback request) in
  let symlink := newFile dir (sNewName req) entry in
  ret (Some symlink, err).

(** *** Readlink *)

Definition Readlink (file : File) : M (string * option Error) :=
  let* r := maybeLoadEntry file in
  match r.2 with
  | Some err => ret (""%string, Some err)
  | None =>
      match r.1.2 with
      | None => panic
      | Some entry =>
          let* e := read_entry entry in
          match filer_pb.Attributes e with
          | None => panic
          | Some a =>
              let* x := read_attrs a in
              if Z.land (filer_pb.FileMode x) Go.ModeSymlink =? 0
              then ret (""%string, Some EINVAL)
              else ret (filer_pb.SymlinkTarget x, None)
          end
      end
  end.

End Filesys.

(** ** Describing a run *)

Definition with_attrHeap (w : World) (h : list FuseAttributes) : World :=
  {| attrHeap := h; entryHeap := entryHeap w; metaCache := metaCache w;
     trace := trace w; randomPos := randomPos w; clockPos := clockPos w |}.

Definition with_entryHeap (w : World) (h : list EntryObj) : World :=
  {| attrHeap := attrHeap w; entryHeap := h; metaCache := metaCache w;
     trace := trace w; randomPos := randomPos w; clockPos := clockPos w |}.

(** The cache is written only through the two recorded operations, so its
    content follows from the events. *)
Definition replay (evs : list Event) (c : gmap string CachedEntry)
  : gmap string CachedEntry :=
  foldl (fun c ev =>
           match ev with
           | Remote _ _ => c
           | CacheUpdate x => <[cFullPath x := x]> c
           | CacheInsert x => <[cFullPath x := x]> c
           end) c evs.

Definition after_events (w : World) (evs : list Event) : World :=
  {| attrHeap := attrHeap w; entryHeap := entryHeap w;
     metaCache := replay evs (metaCache w);
     trace := trace w ++ evs;
     randomPos := randomPos w; clockPos := clockPos w |}.

(** The attributes behind a pointer that may be nil. *)
Definition attrs_at (h : list FuseAttributes) (oa : option loc)
  : option (option FuseAttributes) :=
  match oa with
  | None => Some None
  | Some a => Some <$> h !! a
  end.

(** The heap after one direction of the mapper went over the attributes
    behind [oa]. *)
Definition map_ids (f : Z -> Z -> Z * Z) (oa : option loc)
    (h : list FuseAttributes) : list FuseAttributes :=
  match oa with
  | None => h
  | Some a =>
      match h !! a with
      | Some x => <[a := translate f x]> h
      | None => h
      end
  end.

Definition cached (directory : string) (m : EntryMsg) : CachedEntry :=
  {| cFullPath := NewFullPath directory (filer_pb.Name m);
     cDirectory := directory;
     cEntry := m |}.

(** What [Link] exchanges with the filer and the cache, by the replies. *)
Definition link_exchange (env : Oracles) (directory newDirectory : string)
    (mo mn : EntryMsg) (signatures : list Z) : option Error * list Event :=
  let c1 := CallUpdateEntry directory mo signatures in
  let c2 := CallCreateEntry newDirectory mn signatures in
  match filer env c1 with
  | Some e => (Some EIO, [Remote c1 (Some e)])
  | None =>
      match filer env c2 with
      | Some e =>
          (Some EIO,
           [Remote c1 None; CacheUpdate (cached directory mo); Remote c2 (Some e)])
      | None =>
          (None,
           [Remote c1 None; CacheUpdate (cached directory mo);
            Remote c2 None; CacheInsert (cached newDirectory mn)])
      end
  end.

(** What [Symlink] exchanges with the filer and the cache. *)
Definition symlink_exchange (env : Oracles) (directory : string)
    (m : EntryMsg) (signatures : list Z) : option Error * list Event :=
  let c := CallCreateEntry directory m signatures in
  match filer env c with
  | Some e => (Some EIO, [Remote c (Some e)])
  | None => (None, [Remote c None; CacheInsert (cached directory m)])
  end.

(** The world once the mapper went out and came back over the attributes
    behind [oa], and [evs] happened in between. *)
Definition there_and_back (wfs : WFS) (oa : option loc) (w : World)
    (evs : list Event) : World :=
  after_events
    (with_attrHeap w
       (map_ids (FilerToLocal (mapper wfs)) oa
          (map_ids (LocalToFiler (mapper wfs)) oa (attrHeap w))))
    evs.

(** The source entry after "update old file to hardlink mode". *)
Definition stamp (env : Oracles) (w : World) (e : EntryObj) : EntryObj :=
  if Go.is_empty (filer_pb.HardLinkId e) then
    set_hardlink e (map (random env) (seq (randomPos w) 16) ++ [HARD_LINK_MARKER])
                 (Go.wrap_int32 (1 + 1))
  else
    set_hardlink e (filer_pb.HardLinkId e)
                 (Go.wrap_int32 (filer_pb.HardLinkCounter e + 1)).

Definition after_hardlink_mode (env : Oracles) (p : loc) (e : EntryObj)
    (w : World) : World :=
  {| attrHeap := attrHeap w;
     entryHeap := <[p := stamp env w e]> (entryHeap w);
     metaCache := metaCache w;
     trace := trace w;
     randomPos := if Go.is_empty (filer_pb.HardLinkId e)
                  then (randomPos w + 16)%nat else randomPos w;
     clockPos := clockPos w |}.

(** The entry object [Link] builds for the new name. *)
Definition link_entry (req : LinkRequest) (oldEntry : EntryObj) : EntryObj :=
  {| filer_pb.Name := NewName req;
     filer_pb.IsDirectory := false;
     filer_pb.Attributes := filer_pb.Attributes oldEntry;
     filer_pb.Chunks := filer_pb.Chunks oldEntry;
     filer_pb.Extended := filer_pb.Extended oldEntry;
     filer_pb.HardLinkId := filer_pb.HardLinkId oldEntry;
     filer_pb.HardLinkCounter := filer_pb.HardLinkCounter oldEntry |}.

(** The end of [Link], from the error of the callback on. *)
Definition link_return (env : Oracles) (dir : Dir) (req : LinkRequest)
    (newEntry : loc) (err : option Error) : M (option Node * option Error) :=
  match err with
  | Some _ => ret (None, Some EIO)
  | None =>
      let* r := maybeLoadEntry env {| fName := NewName req; fDir := dir;
                                      fEntry := Some newEntry |} in
      match r.2 with
      | Some err => ret (None, Some err)
      | None => ret (Some (NodeFile r.1.1), None)
      end
  end.

(** The attributes and the entry object [Symlink] builds. *)
Definition symlink_attributes (wfs : WFS) (env : Oracles) (w : World)
    (req : SymlinkRequest) : FuseAttributes :=
  {| filer_pb.Mtime := clock env (clockPos w);
     filer_pb.Crtime := clock env (S (clockPos w));
     filer_pb.FileMode := symlink_mode wfs;
     filer_pb.Uid := sUid req;
     filer_pb.Gid := sGid req;
     filer_pb.SymlinkTarget := Target req |}.

Definition symlink_entry (req : SymlinkRequest) (attributes : loc) : EntryObj :=
  {| filer_pb.Name := sNewName req;
     filer_pb.IsDirectory := false;
     filer_pb.Attributes := Some attributes;
     filer_pb.Chunks := [];
     filer_pb.Extended := ∅;
     filer_pb.HardLinkId := [];
     filer_pb.HardLinkCounter := 0 |}.

(** The world when [Symlink] enters the callback. *)
Definition symlink_built (wfs : WFS) (env : Oracles) (w : World)
    (req : SymlinkRequest) : World :=
  {| attrHeap := attrHeap w ++ [symlink_attributes wfs env w req];
     entryHeap := entryHeap w ++ [symlink_entry req (length (attrHeap w))];
     metaCache := metaCache w;
     trace := trace w;
     randomPos := randomPos w;
     clockPos := S (S (clockPos w)) |}.

(** ** A small mount to run things on *)

(** A mapper that exchanges two identifiers, as a mapping table does. *)
Definition swap (a b x : Z) : Z :=
  if x =? a then b else if x =? b then a else x.

Definition demo_mapper : UidGidMapper :=
  {| LocalToFiler := fun u g => (swap 1000 2000 u, swap 100 200 g);
     FilerToLocal := fun u g => (swap 1000 2000 u, swap 100 200 g) |}.

Definition demo_wfs : WFS :=
  {| ReadOnly := false; Umask := 18; mapper := demo_mapper; signature := 7 |}.

Definition demo_wfs_ro : WFS :=
  {| ReadOnly := true; Umask := 18; mapper := demo_mapper; signature := 7 |}.

(** A filer that accepts every call. *)
Definition demo_env : Oracles :=
  {| filer := fun _ => None;
     random := fun n => Byte.x2a;
     clock := fun n => 1600000000 + Z.of_nat n;
     loader := fun _ => LoadResident |}.

(** A filer that accepts updates and refuses to create. *)
Definition demo_env_no_create : Oracles :=
  {| filer := fun c => match c with
                       | CallUpdateEntry _ _ _ => None
                       | CallCreateEntry _ _ _ => Some (ErrOther "exists")
                       end;
     random := fun n => Byte.x2a;
     clock := fun n => 1600000000 + Z.of_nat n;
     loader := fun _ => LoadResident |}.

Definition demo_attrs : FuseAttributes :=
  {| filer_pb.Mtime := 1; filer_pb.Crtime := 1; filer_pb.FileMode := 420;
     filer_pb.Uid := 1000; filer_pb.Gid := 100; filer_pb.SymlinkTarget := "" |}.

Definition demo_link_attrs : FuseAttributes :=
  {| filer_pb.Mtime := 1; filer_pb.Crtime := 1;
     filer_pb.FileMode := Z.lor 493 Go.ModeSymlink;
     filer_pb.Uid := 0; filer_pb.Gid := 0;
     filer_pb.SymlinkTarget := "/target/path" |}.

Definition demo_entry : EntryObj :=
  {| filer_pb.Name := "a.txt"; filer_pb.IsDirectory := false;
     filer_pb.Attributes := Some 0%nat;
     filer_pb.Chunks := [ {| filer_pb.FileId := "3,01637037d6";
                             filer_pb.Offset := 0; filer_pb.Size := 12 |} ];
     filer_pb.Extended := ∅;
     filer_pb.HardLinkId := []; filer_pb.HardLinkCounter := 0 |}.

Definition demo_link_entry : EntryObj :=
  {| filer_pb.Name := "l"; filer_pb.IsDirectory := false;
     filer_pb.Attributes := Some 1%nat;
     filer_pb.Chunks := []; filer_pb.Extended := ∅;
     filer_pb.HardLinkId := []; filer_pb.HardLinkCounter := 0 |}.

Definition demo_world : World :=
  {| attrHeap := [demo_attrs; demo_link_attrs];
     entryHeap := [demo_entry; demo_link_entry];
     metaCache := ∅; trace := []; randomPos := 0; clockPos := 0 |}.

Definition demo_dir : Dir := {| FullPath := "/d" |}.

Definition demo_file : File :=
  {| fName := "a.txt"; fDir := demo_dir; fEntry := Some 0%nat |}.

Definition demo_link_file : File :=
  {| fName := "l"; fDir := demo_dir; fEntry := Some 1%nat |}.

Definition demo_link_request : LinkRequest := {| NewName := "b.txt" |}.

Definition demo_symlink_request : SymlinkRequest :=
  {| sNewName := "link1"; Target := "/target/path"; sUid := 1000; sGid := 1000 |}.

(** The entries that went to the filer, in order. *)
Definition sent_entries (evs : list Event) : list EntryMsg :=
  flat_map (fun ev =>
              match ev with
              | Remote (CallUpdateEntry _ m _) _ => [m]
              | Remote (CallCreateEntry _ m _) _ => [m]
              | _ => []
              end) evs.

Definition trace_of {A} (r : Res A) : list Event :=
  match r with
  | Done _ w => trace w
  | Panic w => trace w
  | Stuck => []
  end.

Definition with_loader (env : Oracles) (l : File -> LoadOutcome) : Oracles :=
  {| filer := filer env; random := random env; clock := clock env; loader := l |}.

(** Every pointer leads somewhere. *)
Definition heap_ok (w : World) : Prop :=
  forall p (e : EntryObj),
    entryHeap w !! p = Some e ->
    is_Some (attrs_at (attrHeap w) (filer_pb.Attributes e)).

Definition node_ok (w : World) (n : Node) : Prop :=
  match n with
  | NodeFile f => forall p, fEntry f = Some p -> is_Some (entryHeap w !! p)
  | NodeDir _ => True
  end.

(** Every cache write comes directly after the remote call for the same
    directory and entry, and that call returned without error.  [last] is
    the event just before [evs], if it still licenses a cache write. *)
Fixpoint cache_after_remote (last : option Event) (evs : list Event) : Prop :=
  match evs with
  | [] => True
  | Remote c r :: rest => cache_after_remote (Some (Remote c r)) rest
  | CacheUpdate x :: rest =>
      (exists d m s, last = Some (Remote (CallUpdateEntry d m s) None)
                     /\ x = cached d m)
      /\ cache_after_remote None rest
  | CacheInsert x :: rest =>
      (exists d m s, last = Some (Remote (CallCreateEntry d m s) None)
                     /\ x = cached d m)
      /\ cache_after_remote None rest
  end.

Definition outcome_world {A} (r : Res A) : option World :=
  match r with
  | Done _ w => Some w
  | Panic w => Some w
  | Stuck => None
  end.

(** What [Link] and [Symlink] add to the trace, and that the cache moved
    with it. *)
Definition emits {A} (r : Res A) (w : World) (evs : list Event) : Prop :=
  exists w', outcome_world r = Some w' /\
             trace w' = trace w ++ evs /\
             metaCache w' = replay evs (metaCache w).





(** A filer that refuses every call. *)
Definition demo_env_refusing : Oracles :=
  {| filer := fun _ => Some (ErrOther "unavailable");
     random := fun n => Byte.x2a;
     clock := fun n => 1600000000 + Z.of_nat n;
     loader := fun _ => LoadResident |}.

(** A filer that accepts, and a loader that fails on the name "b.txt". *)
Definition demo_env_no_reload : Oracles :=
  {| filer := fun _ => None;
     random := fun n => Byte.x2a;
     clock := fun n => 1600000000 + Z.of_nat n;
     loader := fun f => if String.eqb (fName f) "b.txt"
                        then LoadError (ErrOther "lookup failed")
                        else LoadResident |}.

(** A loader that finds nothing. *)
Definition demo_env_nothing : Oracles :=
  {| filer := fun _ => None;
     random := fun n => Byte.x2a;
     clock := fun n => 1600000000 + Z.of_nat n;
     loader := fun _ => LoadFetched None |}.

(** A loader that fails. *)
Definition demo_env_load_error : Oracles :=
  {| filer := fun _ => None;
     random := fun n => Byte.x2a;
     clock := fun n => 1600000000 + Z.of_nat n;
     loader := fun _ => LoadError (ErrOther "lookup failed") |}.

(** A umask that masks the symbolic-link bit. *)
Definition demo_wfs_masking : WFS :=
  {| ReadOnly := false; Umask := Z.lor 18 Go.ModeSymlink;
     mapper := demo_mapper; signature := 7 |}.

(** An entry without attributes, and a node on it. *)
Definition demo_bare_entry : EntryObj :=
  {| filer_pb.Name := "bare"; filer_pb.IsDirectory := false;
     filer_pb.Attributes := None;
     filer_pb.Chunks := []; filer_pb.Extended := ∅;
     filer_pb.HardLinkId := []; filer_pb.HardLinkCounter := 0 |}.

Definition demo_bare_world : World :=
  {| attrHeap := []; entryHeap := [demo_bare_entry];
     metaCache := ∅; trace := []; randomPos := 0; clockPos := 0 |}.

Definition demo_bare_file : File :=
  {| fName := "bare"; fDir := demo_dir; fEntry := Some 0%nat |}.

Definition demo_unloaded_file : File :=
  {| fName := "gone"; fDir := demo_dir; fEntry := None |}.

(** An entry that is already hard-linked, its counter at the largest
    [int32]. *)
Definition demo_linked_entry : EntryObj :=
  {| filer_pb.Name := "a.txt"; filer_pb.IsDirectory := false;
     filer_pb.Attributes := Some 0%nat;
     filer_pb.Chunks := []; filer_pb.Extended := ∅;
     filer_pb.HardLinkId := [Byte.x2a; Byte.x01];
     filer_pb.HardLinkCounter := 2147483647 |}.

Definition demo_linked_world : World :=
  {| attrHeap := [demo_attrs]; entryHeap := [demo_linked_entry];
     metaCache := ∅; trace := []; randomPos := 5; clockPos := 0 |}.

(** The demo heaps under another cache and trace: the cache holds, under
    the path of the link "l", an entry with another target. *)
Definition demo_other_cached : CachedEntry :=
  cached "/d"
    (message demo_link_entry
       (Some {| filer_pb.Mtime := 1; filer_pb.Crtime := 1;
                filer_pb.FileMode := 420;
                filer_pb.Uid := 0; filer_pb.Gid := 0;
                filer_pb.SymlinkTarget := "/elsewhere" |})).

Definition demo_world_other_cache : World :=
  {| attrHeap := [demo_attrs; demo_link_attrs];
     entryHeap := [demo_entry; demo_link_entry];
     metaCache := {[ cFullPath demo_other_cached := demo_other_cached ]};
     trace := [CacheInsert demo_other_cached];
     randomPos := 3; clockPos := 9 |}.








(** * Properties *)

(** ** Running the primitives *)

Lemma lookup_app_length {A} (l : list A) (x : A) :
  (l ++ [x]) !! length l = Some x.
Proof.
  rewrite lookup_app_r by lia. rewrite Nat.sub_diag. reflexivity.
Qed.

Lemma bind_run {A B} (m : M A) (k : A -> M B) w a w' :
  m w = Done a w' -> bind m k w = k a w'.
Proof. intros H. unfold bind. rewrite H. reflexivity. Qed.

Lemma bind_stuck {A B} (m : M A) (k : A -> M B) w :
  m w = Stuck -> bind m k w = Stuck.
Proof. intros H. unfold bind. rewrite H. reflexivity. Qed.

Lemma with_defer_run {A} (cleanup : M unit) (body : M A) w a w1 w2 :
  body w = Done a w1 -> cleanup w1 = Done tt w2 ->
  with_defer cleanup body w = Done a w2.
Proof. intros Hb Hc. unfold with_defer. rewrite Hb, Hc. reflexivity. Qed.

Lemma replay_app evs1 evs2 c :
  replay (evs1 ++ evs2) c = replay evs2 (replay evs1 c).
Proof. unfold replay. apply foldl_app. Qed.

Lemma after_events_app w evs1 evs2 :
  after_events (after_events w evs1) evs2 = after_events w (evs1 ++ evs2).
Proof.
  unfold after_events. cbn. rewrite replay_app, app_assoc. reflexivity.
Qed.

Lemma attrs_at_deref h (e : EntryObj) ox :
  attrs_at h (filer_pb.Attributes e) = Some ox ->
  deref_attrs h e = Some (message e ox).
Proof.
  unfold attrs_at, deref_attrs.
  destruct (filer_pb.Attributes e) as [a|]; [|congruence].
  destruct (h !! a); cbn; congruence.
Qed.

Lemma attrs_at_map_ids f h oa ox :
  attrs_at h oa = Some ox ->
  attrs_at (map_ids f oa h) oa = Some (translate f <$> ox).
Proof.
  unfold attrs_at, map_ids. destruct oa as [a|]; [|intros [= <-]; reflexivity].
  destruct (h !! a) as [x|] eqn:Hx; cbn; [|discriminate].
  intros [= <-]. rewrite list_lookup_insert_eq; [reflexivity|].
  eapply lookup_lt_Some; eassumption.
Qed.

Lemma serialise_run w p (e : EntryObj) ox :
  entryHeap w !! p = Some e ->
  attrs_at (attrHeap w) (filer_pb.Attributes e) = Some ox ->
  serialise p w = Done (message e ox) w.
Proof.
  intros He Hx. unfold serialise, message_at. rewrite He.
  rewrite (attrs_at_deref _ _ _ Hx). reflexivity.
Qed.

Lemma mapPbIdFromLocalToFiler_run wfs w p (e : EntryObj) ox :
  entryHeap w !! p = Some e ->
  attrs_at (attrHeap w) (filer_pb.Attributes e) = Some ox ->
  mapPbIdFromLocalToFiler wfs p w =
    Done tt (with_attrHeap w
               (map_ids (LocalToFiler (mapper wfs)) (filer_pb.Attributes e) (attrHeap w))).
Proof.
  intros He Hx. unfold mapPbIdFromLocalToFiler, bind, read_entry. rewrite He.
  unfold attrs_at, map_ids in *.
  destruct (filer_pb.Attributes e) as [a|]; [|destruct w; reflexivity].
  unfold read_attrs, write_attrs.
  destruct (attrHeap w !! a) as [x|] eqn:Ha; [|discriminate].
  cbn. rewrite Ha. reflexivity.
Qed.

Lemma mapPbIdFromLocalToFiler_stuck wfs w p (e : EntryObj) :
  entryHeap w !! p = Some e ->
  attrs_at (attrHeap w) (filer_pb.Attributes e) = None ->
  mapPbIdFromLocalToFiler wfs p w = Stuck.
Proof.
  intros He Hx. unfold mapPbIdFromLocalToFiler, bind, read_entry. rewrite He.
  unfold attrs_at in Hx.
  destruct (filer_pb.Attributes e) as [a|]; [|discriminate].
  unfold read_attrs. destruct (attrHeap w !! a); [discriminate|reflexivity].
Qed.

Lemma mapPbIdFromFilerToLocal_run wfs w p (e : EntryObj) ox :
  entryHeap w !! p = Some e ->
  attrs_at (attrHeap w) (filer_pb.Attributes e) = Some ox ->
  mapPbIdFromFilerToLocal wfs p w =
    Done tt (with_attrHeap w
               (map_ids (FilerToLocal (mapper wfs)) (filer_pb.Attributes e) (attrHeap w))).
Proof.
  intros He Hx. unfold mapPbIdFromFilerToLocal, bind, read_entry. rewrite He.
  unfold attrs_at, map_ids in *.
  destruct (filer_pb.Attributes e) as [a|]; [|destruct w; reflexivity].
  unfold read_attrs, write_attrs.
  destruct (attrHeap w !! a) as [x|] eqn:Ha; [|discriminate].
  cbn. rewrite Ha. reflexivity.
Qed.

Lemma filer_pb_UpdateEntry_run env req w (e : EntryObj) ox :
  entryHeap w !! filer_pb.Entry_ req = Some e ->
  attrs_at (attrHeap w) (filer_pb.Attributes e) = Some ox ->
  filer_pb_UpdateEntry env req w =
    Done (filer env (CallUpdateEntry (filer_pb.Directory req) (message e ox)
                                     (filer_pb.Signatures req)))
         (after_events w
            [Remote (CallUpdateEntry (filer_pb.Directory req) (message e ox)
                                     (filer_pb.Signatures req))
                    (filer env (CallUpdateEntry (filer_pb.Directory req) (message e ox)
                                                (filer_pb.Signatures req)))]).
Proof.
  intros He Hx. unfold filer_pb_UpdateEntry.
  rewrite (bind_run _ _ _ _ _ (serialise_run _ _ _ _ He Hx)). reflexivity.
Qed.

Lemma filer_pb_CreateEntry_run env req w (e : EntryObj) ox :
  entryHeap w !! filer_pb.Entry_ req = Some e ->
  attrs_at (attrHeap w) (filer_pb.Attributes e) = Some ox ->
  filer_pb_CreateEntry env req w =
    Done (filer env (CallCreateEntry (filer_pb.Directory req) (message e ox)
                                     (filer_pb.Signatures req)))
         (after_events w
            [Remote (CallCreateEntry (filer_pb.Directory req) (message e ox)
                                     (filer_pb.Signatures req))
                    (filer env (CallCreateEntry (filer_pb.Directory req) (message e ox)
                                                (filer_pb.Signatures req)))]).
Proof.
  intros He Hx. unfold filer_pb_CreateEntry.
  rewrite (bind_run _ _ _ _ _ (serialise_run _ _ _ _ He Hx)). reflexivity.
Qed.

Lemma FromPbEntry_run directory w p (e : EntryObj) ox :
  entryHeap w !! p = Some e ->
  attrs_at (attrHeap w) (filer_pb.Attributes e) = Some ox ->
  FromPbEntry directory p w = Done (cached directory (message e ox)) w.
Proof.
  intros He Hx. unfold FromPbEntry.
  rewrite (bind_run _ _ _ _ _ (serialise_run _ _ _ _ He Hx)). reflexivity.
Qed.

Lemma metaCache_UpdateEntry_run c w :
  metaCache_UpdateEntry c w = Done tt (after_events w [CacheUpdate c]).
Proof. reflexivity. Qed.

Lemma metaCache_InsertEntry_run c w :
  metaCache_InsertEntry c w = Done tt (after_events w [CacheInsert c]).
Proof. reflexivity. Qed.

(** [link_callback], run on two entry objects that share their attributes. *)
Lemma link_callback_run wfs env upd req w (eo en : EntryObj) ox :
  entryHeap w !! filer_pb.Entry_ upd = Some eo ->
  entryHeap w !! filer_pb.Entry_ req = Some en ->
  filer_pb.Attributes eo = filer_pb.Attributes en ->
  filer_pb.Signatures upd = filer_pb.Signatures req ->
  attrs_at (attrHeap w) (filer_pb.Attributes en) = Some ox ->
  let sent := translate (LocalToFiler (mapper wfs)) <$> ox in
  let x := link_exchange env (filer_pb.Directory upd) (filer_pb.Directory req)
             (message eo sent) (message en sent) (filer_pb.Signatures req) in
  link_callback wfs env upd req w =
    Done x.1 (there_and_back wfs (filer_pb.Attributes en) w x.2).
Proof.
  intros Ho Hn Hsh Hsig Hx sent x.
  pose proof (attrs_at_map_ids (LocalToFiler (mapper wfs)) _ _ _ Hx) as Hout.
  fold sent in Hout.
  unfold link_callback.
  rewrite (bind_run _ _ _ _ _ (mapPbIdFromLocalToFiler_run wfs _ _ _ _ Hn Hx)).
  set (w1 := with_attrHeap w _).
  assert (Ho1 : entryHeap w1 !! filer_pb.Entry_ upd = Some eo) by exact Ho.
  assert (Hn1 : entryHeap w1 !! filer_pb.Entry_ req = Some en) by exact Hn.
  assert (Hxo : attrs_at (attrHeap w1) (filer_pb.Attributes eo) = Some sent)
    by (rewrite Hsh; exact Hout).
  assert (Hxn : attrs_at (attrHeap w1) (filer_pb.Attributes en) = Some sent)
    by exact Hout.
  assert (Hback : forall evs,
             mapPbIdFromFilerToLocal wfs (filer_pb.Entry_ req) (after_events w1 evs)
             = Done tt (there_and_back wfs (filer_pb.Attributes en) w evs)).
  { intros evs.
    rewrite (mapPbIdFromFilerToLocal_run wfs (after_events w1 evs) _ en sent Hn1 Hxn).
    reflexivity. }
  subst x. unfold link_exchange. rewrite <- Hsig.
  destruct (filer env (CallUpdateEntry _ (message eo sent) _)) as [e1|] eqn:E1.
  - eapply with_defer_run; [|apply Hback].
    rewrite (bind_run _ _ _ _ _ (filer_pb_UpdateEntry_run env _ _ _ _ Ho1 Hxo)).
    rewrite E1. reflexivity.
  - destruct (filer env (CallCreateEntry _ (message en sent) _)) as [e2|] eqn:E2.
    + eapply with_defer_run; [|apply Hback].
      rewrite (bind_run _ _ _ _ _ (filer_pb_UpdateEntry_run env _ _ _ _ Ho1 Hxo)).
      rewrite E1.
      rewrite (bind_run _ _ _ _ _
                 (FromPbEntry_run _ (after_events w1 _) _ _ _ Ho1 Hxo)).
      rewrite (bind_run _ _ _ _ _ (metaCache_UpdateEntry_run _ _)).
      rewrite after_events_app.
      rewrite (bind_run _ _ _ _ _
                 (filer_pb_CreateEntry_run env _ (after_events w1 _) _ _ Hn1 Hxn)).
      rewrite Hsig in *. rewrite E2. rewrite after_events_app. reflexivity.
    + eapply with_defer_run; [|apply Hback].
      rewrite (bind_run _ _ _ _ _ (filer_pb_UpdateEntry_run env _ _ _ _ Ho1 Hxo)).
      rewrite E1.
      rewrite (bind_run _ _ _ _ _
                 (FromPbEntry_run _ (after_events w1 _) _ _ _ Ho1 Hxo)).
      rewrite (bind_run _ _ _ _ _ (metaCache_UpdateEntry_run _ _)).
      rewrite after_events_app.
      rewrite (bind_run _ _ _ _ _
                 (filer_pb_CreateEntry_run env _ (after_events w1 _) _ _ Hn1 Hxn)).
      rewrite Hsig in *. rewrite E2. rewrite after_events_app.
      rewrite (bind_run _ _ _ _ _
                 (FromPbEntry_run _ (after_events w1 _) _ _ _ Hn1 Hxn)).
      rewrite (bind_run _ _ _ _ _ (metaCache_InsertEntry_run _ _)).
      rewrite after_events_app. reflexivity.
Qed.

(** [symlink_callback], run on the entry just built. *)
Lemma symlink_callback_run wfs env req w (en : EntryObj) ox :
  entryHeap w !! filer_pb.Entry_ req = Some en ->
  attrs_at (attrHeap w) (filer_pb.Attributes en) = Some ox ->
  let sent := translate (LocalToFiler (mapper wfs)) <$> ox in
  let x := symlink_exchange env (filer_pb.Directory req) (message en sent)
             (filer_pb.Signatures req) in
  symlink_callback wfs env req w =
    Done x.1 (there_and_back wfs (filer_pb.Attributes en) w x.2).
Proof.
  intros Hn Hx sent x.
  pose proof (attrs_at_map_ids (LocalToFiler (mapper wfs)) _ _ _ Hx) as Hout.
  fold sent in Hout.
  unfold symlink_callback.
  rewrite (bind_run _ _ _ _ _ (mapPbIdFromLocalToFiler_run wfs _ _ _ _ Hn Hx)).
  set (w1 := with_attrHeap w _).
  assert (Hn1 : entryHeap w1 !! filer_pb.Entry_ req = Some en) by exact Hn.
  assert (Hxn : attrs_at (attrHeap w1) (filer_pb.Attributes en) = Some sent)
    by exact Hout.
  assert (Hback : forall evs,
             mapPbIdFromFilerToLocal wfs (filer_pb.Entry_ req) (after_events w1 evs)
             = Done tt (there_and_back wfs (filer_pb.Attributes en) w evs)).
  { intros evs.
    rewrite (mapPbIdFromFilerToLocal_run wfs (after_events w1 evs) _ en sent Hn1 Hxn).
    reflexivity. }
  subst x. unfold symlink_exchange.
  destruct (filer env (CallCreateEntry _ (message en sent) _)) as [e1|] eqn:E1.
  - eapply with_defer_run; [|apply Hback].
    rewrite (bind_run _ _ _ _ _ (filer_pb_CreateEntry_run env _ _ _ _ Hn1 Hxn)).
    rewrite E1. reflexivity.
  - eapply with_defer_run; [|apply Hback].
    rewrite (bind_run _ _ _ _ _ (filer_pb_CreateEntry_run env _ _ _ _ Hn1 Hxn)).
    rewrite E1.
    rewrite (bind_run _ _ _ _ _
               (FromPbEntry_run _ (after_events w1 _) _ _ _ Hn1 Hxn)).
    rewrite (bind_run _ _ _ _ _ (metaCache_InsertEntry_run _ _)).
    rewrite after_events_app. reflexivity.
Qed.

Lemma hardlink_mode_run env w p (e : EntryObj) :
  entryHeap w !! p = Some e ->
  hardlink_mode env p w = Done tt (after_hardlink_mode env p e w).
Proof.
  intros He. unfold hardlink_mode.
  rewrite (bind_run _ _ _ _ _ (ltac:(unfold read_entry; rewrite He; reflexivity)
                               : read_entry p w = Done e w)).
  unfold after_hardlink_mode, stamp.
  destruct (Go.is_empty (filer_pb.HardLinkId e)).
  - unfold bind, RandomBytes, ret, write_entry. cbn. rewrite He. reflexivity.
  - unfold bind, ret, write_entry. rewrite He. destruct w; reflexivity.
Qed.

(** The lazy load always returns; it only allocates. *)
Lemma maybeLoadEntry_total env f w :
  exists f1 r err w1,
    maybeLoadEntry env f w = Done (f1, r, err) w1 /\
    trace w1 = trace w /\ metaCache w1 = metaCache w /\
    randomPos w1 = randomPos w /\ clockPos w1 = clockPos w /\
    (exists h, attrHeap w1 = attrHeap w ++ h) /\
    (exists h, entryHeap w1 = entryHeap w ++ h).
Proof.
  unfold maybeLoadEntry.
  destruct (loader env f) as [e| |[m|]].
  - exists f, None, (Some e), w. repeat split; try (exists []; symmetry; apply app_nil_r).
  - exists f, (fEntry f), None, w. repeat split; try (exists []; symmetry; apply app_nil_r).
  - destruct (filer_pb.Attributes m) as [x|].
    + do 4 eexists. split; [reflexivity|]. cbn.
      repeat split; eexists; reflexivity.
    + do 4 eexists. split; [reflexivity|]. cbn.
      repeat split; try (exists []; symmetry; apply app_nil_r). eexists; reflexivity.
  - exists (set_fEntry f None), None, None, w.
    repeat split; try (exists []; symmetry; apply app_nil_r).
Qed.

Lemma stamp_keeps env w (e : EntryObj) :
  filer_pb.Name (stamp env w e) = filer_pb.Name e /\
  filer_pb.IsDirectory (stamp env w e) = filer_pb.IsDirectory e /\
  filer_pb.Attributes (stamp env w e) = filer_pb.Attributes e /\
  filer_pb.Chunks (stamp env w e) = filer_pb.Chunks e /\
  filer_pb.Extended (stamp env w e) = filer_pb.Extended e.
Proof. unfold stamp. destruct (Go.is_empty _); repeat split. Qed.


Lemma stamp_again env w (e : EntryObj) :
  filer_pb.HardLinkId e <> [] ->
  filer_pb.HardLinkId (stamp env w e) = filer_pb.HardLinkId e /\
  filer_pb.HardLinkCounter (stamp env w e)
  = Go.wrap_int32 (filer_pb.HardLinkCounter e + 1).
Proof.
  intros H. unfold stamp.
  destruct (filer_pb.HardLinkId e); [congruence|]. split; reflexivity.
Qed.

Lemma stamp_nonempty env w (e : EntryObj) :
  filer_pb.HardLinkId (stamp env w e) <> [].
Proof.
  unfold stamp. destruct (filer_pb.HardLinkId e) eqn:H; cbn.
  - destruct (random env _); discriminate.
  - discriminate.
Qed.

(** [Link] from the loaded source entry to the callback. *)
Lemma Link_to_callback wfs env dir req f w f1 r w1 p (e : EntryObj) :
  ReadOnly wfs = false ->
  maybeLoadEntry env f w = Done (f1, r, None) w1 ->
  fEntry f1 = Some p ->
  entryHeap w1 !! p = Some e ->
  let e' := stamp env w1 e in
  let ne := link_entry req e' in
  let n := length (entryHeap w1) in
  let w3 := with_entryHeap (after_hardlink_mode env p e w1)
              (<[p := e']> (entryHeap w1) ++ [ne]) in
  Link wfs env dir req (NodeFile f) w =
    bind (link_callback wfs env
            {| filer_pb.Directory := FullPath (fDir f1); filer_pb.Entry_ := p;
               filer_pb.Signatures := [signature wfs] |}
            {| filer_pb.Directory := FullPath dir; filer_pb.Entry_ := n;
               filer_pb.Signatures := [signature wfs] |})
         (link_return env dir req n) w3 /\
  entryHeap w3 !! p = Some e' /\
  entryHeap w3 !! n = Some ne /\
  attrHeap w3 = attrHeap w1 /\
  filer_pb.Attributes ne = filer_pb.Attributes e.
Proof.
  intros Hro Hload Hp He e' ne n w3.
  assert (Hlt : (p < length (entryHeap w1))%nat) by (eapply lookup_lt_Some; eauto).
  assert (Hattr : filer_pb.Attributes e' = filer_pb.Attributes e)
    by apply stamp_keeps.
  split; [|split; [|split; [|split]]].
  - unfold Link. rewrite Hro.
    rewrite (bind_run _ _ _ _ _ Hload). cbn [fst snd]. unfold getEntry. rewrite Hp.
    rewrite (bind_run _ _ _ _ _ (hardlink_mode_run env _ _ _ He)).
    assert (He' : entryHeap (after_hardlink_mode env p e w1) !! p = Some e').
    { cbn. apply list_lookup_insert_eq. exact Hlt. }
    rewrite (bind_run _ _ _ _ _ (ltac:(unfold read_entry; rewrite He'; reflexivity)
        : read_entry p (after_hardlink_mode env p e w1) = Done e' _)).
    unfold new_entry at 1.
    unfold bind at 1. cbn [entryHeap attrHeap metaCache trace randomPos clockPos
                           after_hardlink_mode].
    rewrite length_insert. reflexivity.
  - cbn. apply lookup_app_l_Some. apply list_lookup_insert_eq. exact Hlt.
  - cbn. unfold n. rewrite <- (length_insert (entryHeap w1) p e').
    apply lookup_app_length.
  - reflexivity.
  - exact Hattr.
Qed.

(** [Link] from the loaded source entry on: the world before the callback,
    the exchange with the filer and the cache, the world after. *)
Lemma Link_run wfs env dir req f w f1 r w1 p (e : EntryObj) ox :
  ReadOnly wfs = false ->
  maybeLoadEntry env f w = Done (f1, r, None) w1 ->
  fEntry f1 = Some p ->
  entryHeap w1 !! p = Some e ->
  attrs_at (attrHeap w1) (filer_pb.Attributes e) = Some ox ->
  let e' := stamp env w1 e in
  let ne := link_entry req e' in
  let n := length (entryHeap w1) in
  let w3 := with_entryHeap (after_hardlink_mode env p e w1)
              (<[p := e']> (entryHeap w1) ++ [ne]) in
  let sent := translate (LocalToFiler (mapper wfs)) <$> ox in
  let x := link_exchange env (FullPath (fDir f1)) (FullPath dir)
             (message e' sent) (message ne sent) [signature wfs] in
  Link wfs env dir req (NodeFile f) w =
    link_return env dir req n x.1
      (there_and_back wfs (filer_pb.Attributes e) w3 x.2).
Proof.
  intros Hro Hload Hp He Hx e' ne n w3 sent x.
  destruct (Link_to_callback wfs env dir req f w f1 r w1 p e Hro Hload Hp He)
    as (HL & Ho3 & Hn3 & Hh3 & Hattr).
  fold e' ne n w3 in HL, Ho3, Hn3, Hh3, Hattr. rewrite HL.
  assert (Hx3 : attrs_at (attrHeap w3) (filer_pb.Attributes ne) = Some ox).
  { rewrite Hh3, Hattr. exact Hx. }
  pose proof (link_callback_run wfs env
                {| filer_pb.Directory := FullPath (fDir f1); filer_pb.Entry_ := p;
                   filer_pb.Signatures := [signature wfs] |}
                {| filer_pb.Directory := FullPath dir; filer_pb.Entry_ := n;
                   filer_pb.Signatures := [signature wfs] |}
                w3 e' ne ox Ho3 Hn3 eq_refl eq_refl Hx3) as Hcb.
  cbn [filer_pb.Directory filer_pb.Entry_ filer_pb.Signatures] in Hcb.
  rewrite (bind_run _ _ _ _ _ Hcb).
  fold sent. fold x. rewrite Hattr. reflexivity.
Qed.

(** With attributes that lead nowhere, [Link] does not return. *)
Lemma Link_dangling wfs env dir req f w f1 r w1 p (e : EntryObj) :
  ReadOnly wfs = false ->
  maybeLoadEntry env f w = Done (f1, r, None) w1 ->
  fEntry f1 = Some p ->
  entryHeap w1 !! p = Some e ->
  attrs_at (attrHeap w1) (filer_pb.Attributes e) = None ->
  Link wfs env dir req (NodeFile f) w = Stuck.
Proof.
  intros Hro Hload Hp He Hx.
  destruct (Link_to_callback wfs env dir req f w f1 r w1 p e Hro Hload Hp He)
    as (HL & _ & Hn3 & Hh3 & Hattr).
  rewrite HL. apply bind_stuck. unfold link_callback. apply bind_stuck.
  cbn [filer_pb.Entry_].
  apply (mapPbIdFromLocalToFiler_stuck wfs _ _ _ Hn3).
  rewrite Hh3, Hattr. exact Hx.
Qed.

Lemma Symlink_run wfs env dir req w :
  ReadOnly wfs = false ->
  let a := length (attrHeap w) in
  let n := length (entryHeap w) in
  let sent := Some (translate (LocalToFiler (mapper wfs))
                              (symlink_attributes wfs env w req)) in
  let x := symlink_exchange env (FullPath dir)
             (message (symlink_entry req a) sent) [signature wfs] in
  Symlink wfs env dir req w =
    Done (Some (newFile dir (sNewName req) n), x.1)
         (there_and_back wfs (Some a) (symlink_built wfs env w req) x.2).
Proof.
  intros Hro a n sent x.
  unfold Symlink. rewrite Hro.
  unfold bind at 1. unfold time_Now_Unix at 1.
  unfold bind at 1. unfold time_Now_Unix at 1.
  unfold bind at 1. unfold new_attrs at 1.
  unfold bind at 1. unfold new_entry at 1.
  cbn [entryHeap attrHeap metaCache trace randomPos clockPos].
  fold a. fold n. unfold WithFilerClient.
  change {| attrHeap := _; entryHeap := _; metaCache := _; trace := _;
            randomPos := _; clockPos := _ |}
    with (symlink_built wfs env w req).
  change {| filer_pb.Name := sNewName req; filer_pb.IsDirectory := false;
            filer_pb.Attributes := Some a; filer_pb.Chunks := [];
            filer_pb.Extended := ∅; filer_pb.HardLinkId := [];
            filer_pb.HardLinkCounter := 0 |}
    with (symlink_entry req a).
  assert (Hn : entryHeap (symlink_built wfs env w req) !! n
               = Some (symlink_entry req a)).
  { cbn. apply lookup_app_length. }
  assert (Hx : attrs_at (attrHeap (symlink_built wfs env w req))
                 (filer_pb.Attributes (symlink_entry req a))
               = Some (Some (symlink_attributes wfs env w req))).
  { cbn. unfold a. rewrite lookup_app_length. reflexivity. }
  pose proof (symlink_callback_run wfs env
                {| filer_pb.Directory := FullPath dir; filer_pb.Entry_ := n;
                   filer_pb.Signatures := [signature wfs] |}
                _ _ _ Hn Hx) as Hcb.
  cbn [filer_pb.Directory filer_pb.Entry_ filer_pb.Signatures] in Hcb.
  rewrite (bind_run _ _ _ _ _ Hcb). reflexivity.
Qed.

(** The two ways out of [Link] and [Symlink] before anything is loaded. *)
Lemma Link_read_only wfs env dir req old w :
  ReadOnly wfs = true ->
  Link wfs env dir req old w = Done (None, Some EPERM) w.
Proof. intros Hro. unfold Link. rewrite Hro. reflexivity. Qed.

Lemma Symlink_read_only wfs env dir req w :
  ReadOnly wfs = true ->
  Symlink wfs env dir req w = Done (None, Some EPERM) w.
Proof. intros Hro. unfold Symlink. rewrite Hro. reflexivity. Qed.

Lemma Link_not_a_file wfs env dir req d w :
  ReadOnly wfs = false ->
  Link wfs env dir req (NodeDir d) w = Panic w.
Proof. intros Hro. unfold Link. rewrite Hro. reflexivity. Qed.

(** ** Read-only mode *)

(** C4.  With read-only mode on, [Link] and [Symlink] return [EPERM] at once
    and leave the world as it was: the trace gains no remote call and no
    cache write, and the cache is not touched. *)
Theorem read_only_rejects wfs env dir w :
  ReadOnly wfs = true ->
  (forall req old, Link wfs env dir req old w = Done (None, Some EPERM) w) /\
  (forall req, Symlink wfs env dir req w = Done (None, Some EPERM) w).
Proof.
  intros Hro. split; intros; [unfold Link | unfold Symlink];
    rewrite Hro; reflexivity.
Qed.

Lemma read_only_rejects_witness :
  ReadOnly demo_wfs_ro = true /\
  Link demo_wfs_ro demo_env demo_dir demo_link_request (NodeFile demo_file) demo_world
  = Done (None, Some EPERM) demo_world /\
  Symlink demo_wfs_ro demo_env demo_dir demo_symlink_request demo_world
  = Done (None, Some EPERM) demo_world.
Proof.
  split; [reflexivity|].
  pose proof (read_only_rejects demo_wfs_ro demo_env demo_dir demo_world eq_refl)
    as [HL HS].
  split; [apply HL | apply HS].
Defined.

(** ** A source node that is not a file *)

(** C10, as stated, fails with read-only mode on: [Link] then returns
    [EPERM] for a directory node and does not panic. *)
Lemma link_non_file_read_only :
  Link demo_wfs_ro demo_env demo_dir demo_link_request (NodeDir demo_dir) demo_world
  = Done (None, Some EPERM) demo_world /\
  Link demo_wfs_ro demo_env demo_dir demo_link_request (NodeDir demo_dir) demo_world
  <> Panic demo_world.
Proof. split; [reflexivity | discriminate]. Qed.

(** C10, amended.  Past the read-only check, a source node that is not a
    file makes [Link] panic on the nil file pointer: no error value is
    returned, nothing was loaded, sent or cached. *)
Theorem link_non_file_panics wfs env dir req d w :
  ReadOnly wfs = false ->
  Link wfs env dir req (NodeDir d) w = Panic w /\
  forall res w', Link wfs env dir req (NodeDir d) w <> Done res w'.
Proof.
  intros Hro. unfold Link. rewrite Hro. split; [reflexivity | discriminate].
Qed.

Lemma link_non_file_panics_witness :
  ReadOnly demo_wfs = false /\
  Link demo_wfs demo_env demo_dir demo_link_request (NodeDir demo_dir) demo_world
  = Panic demo_world.
Proof.
  split; [reflexivity|].
  apply (link_non_file_panics demo_wfs demo_env demo_dir demo_link_request
           demo_dir demo_world eq_refl).
Defined.

(** ** Readlink *)

(** The test [os.FileMode(m)&os.ModeSymlink == 0] reads bit 27. *)
Lemma symlink_bit m :
  (Z.land m Go.ModeSymlink =? 0) = negb (Z.testbit m 27).
Proof.
  unfold Go.ModeSymlink. rewrite Z.shiftl_1_l.
  destruct (Z.testbit m 27) eqn:Hb; cbn [negb].
  - apply Z.eqb_neq. intros H0.
    assert (Hbit : Z.testbit (Z.land m (2 ^ 27)) 27 = true).
    { rewrite Z.land_spec, Hb, Z.pow2_bits_true by lia. reflexivity. }
    rewrite H0 in Hbit. rewrite Z.bits_0 in Hbit. discriminate.
  - apply Z.eqb_eq. apply Z.bits_inj'. intros n Hn.
    rewrite Z.land_spec, Z.bits_0.
    destruct (Z.eq_dec n 27) as [->|Hne].
    + rewrite Hb. reflexivity.
    + rewrite Z.pow2_bits_false by lia. apply andb_false_r.
Qed.

Lemma Readlink_run env file w f1 p w1 (e : EntryObj) a x :
  maybeLoadEntry env file w = Done (f1, Some p, None) w1 ->
  entryHeap w1 !! p = Some e ->
  filer_pb.Attributes e = Some a ->
  attrHeap w1 !! a = Some x ->
  Readlink env file w =
    Done (if Z.testbit (filer_pb.FileMode x) 27
          then (filer_pb.SymlinkTarget x, None)
          else (""%string, Some EINVAL)) w1.
Proof.
  intros Hload He Ha Hx. unfold Readlink.
  rewrite (bind_run _ _ _ _ _ Hload). cbn [fst snd].
  unfold bind, read_entry. rewrite He, Ha. unfold read_attrs. rewrite Hx.
  rewrite symlink_bit. destruct (Z.testbit _ 27); reflexivity.
Qed.

(** C5.  On a loaded entry, [Readlink] returns [Attributes.SymlinkTarget]
    as it is when the symbolic-link bit of the file mode is set, and the
    empty string with [EINVAL] when it is not. *)
Theorem Readlink_target_or_EINVAL env file w f1 p w1 (e : EntryObj) a x :
  maybeLoadEntry env file w = Done (f1, Some p, None) w1 ->
  entryHeap w1 !! p = Some e ->
  filer_pb.Attributes e = Some a ->
  attrHeap w1 !! a = Some x ->
  (Z.testbit (filer_pb.FileMode x) 27 = true ->
   Readlink env file w = Done (filer_pb.SymlinkTarget x, None) w1) /\
  (Z.testbit (filer_pb.FileMode x) 27 = false ->
   Readlink env file w = Done (""%string, Some EINVAL) w1).
Proof.
  intros Hload He Ha Hx.
  rewrite (Readlink_run _ _ _ _ _ _ _ _ _ Hload He Ha Hx).
  split; intros ->; reflexivity.
Qed.

Lemma Readlink_target_or_EINVAL_witness :
  Readlink demo_env demo_link_file demo_world
  = Done ("/target/path"%string, None) demo_world /\
  Readlink demo_env demo_file demo_world
  = Done (""%string, Some EINVAL) demo_world.
Proof.
  split.
  - apply (Readlink_target_or_EINVAL demo_env demo_link_file demo_world
             demo_link_file 1%nat demo_world demo_link_entry 1%nat demo_link_attrs
             eq_refl eq_refl eq_refl eq_refl).
    reflexivity.
  - apply (Readlink_target_or_EINVAL demo_env demo_file demo_world
             demo_file 0%nat demo_world demo_entry 0%nat demo_attrs
             eq_refl eq_refl eq_refl eq_refl).
    reflexivity.
Defined.

(** C7.  Given a loaded entry, [Readlink] reads two fields of the entry's
    attributes, the mode and the target, and nothing else.  Two calls whose
    loaded entries agree on these two fields return the same result,
    whatever else differs between them: the cache, the trace, the filer,
    the heaps, the node.  Each call ends in the very world its load left,
    so past the load nothing is sent, written or allocated; the load itself
    leaves trace and cache alone, and with a resident entry the world is
    unchanged. *)
Theorem Readlink_is_pure_read env env' file file' w w' f1 f1' p p' w1 w1'
    (e e' : EntryObj) a a' x x' :
  maybeLoadEntry env file w = Done (f1, Some p, None) w1 ->
  entryHeap w1 !! p = Some e ->
  filer_pb.Attributes e = Some a ->
  attrHeap w1 !! a = Some x ->
  maybeLoadEntry env' file' w' = Done (f1', Some p', None) w1' ->
  entryHeap w1' !! p' = Some e' ->
  filer_pb.Attributes e' = Some a' ->
  attrHeap w1' !! a' = Some x' ->
  filer_pb.FileMode x = filer_pb.FileMode x' ->
  filer_pb.SymlinkTarget x = filer_pb.SymlinkTarget x' ->
  (exists res, Readlink env file w = Done res w1 /\
               Readlink env' file' w' = Done res w1') /\
  trace w1 = trace w /\
  metaCache w1 = metaCache w /\
  (loader env file = LoadResident -> w1 = w).
Proof.
  intros Hload He Ha Hx Hload' He' Ha' Hx' Hmode Htarget.
  split.
  - eexists. split.
    + eapply Readlink_run; eassumption.
    + rewrite (Readlink_run _ _ _ _ _ _ _ _ _ Hload' He' Ha' Hx').
      rewrite <- Hmode, <- Htarget. reflexivity.
  - destruct (maybeLoadEntry_total env file w)
      as (g & r' & err' & v & Hl & Ht & Hc & _).
    rewrite Hload in Hl. injection Hl as <- <- <- <-.
    repeat split; try assumption.
    intros Hres. unfold maybeLoadEntry in Hload. rewrite Hres in Hload.
    injection Hload as _ _ ->. reflexivity.
Qed.

Lemma Readlink_is_pure_read_witness :
  exists res,
    Readlink demo_env demo_link_file demo_world = Done res demo_world /\
    Readlink demo_env_refusing demo_link_file demo_world_other_cache
    = Done res demo_world_other_cache.
Proof.
  apply (Readlink_is_pure_read demo_env demo_env_refusing
           demo_link_file demo_link_file demo_world demo_world_other_cache
           demo_link_file demo_link_file 1%nat 1%nat
           demo_world demo_world_other_cache
           demo_link_entry demo_link_entry 1%nat 1%nat
           demo_link_attrs demo_link_attrs
           eq_refl eq_refl eq_refl eq_refl eq_refl eq_refl eq_refl eq_refl
           eq_refl eq_refl).
Defined.

(** ** Symlink *)

(** C6, as stated, fails where the mapper is not the identity: the entry
    that reaches the filer carries owner 2000 for the requested owner 1000. *)
Lemma symlink_sends_mapped_owner :
  sUid demo_symlink_request = 1000 /\
  map (fun m => filer_pb.Uid <$> filer_pb.Attributes m)
      (sent_entries
         (trace_of (Symlink demo_wfs demo_env demo_dir demo_symlink_request
                            demo_world)))
  = [Some 2000].
Proof. split; reflexivity. Qed.

(** C6, amended.  Past the read-only check, [Symlink] sends one entry to the
    filer, in a [CreateEntry] call: not a directory, file mode
    [(0777 | ModeSymlink) &^ Umask], the requested target, two successive
    readings of the clock as modification and creation time, no hard link
    identifier, and as owner and group the requested ones after the
    local-to-filer mapping. *)
Theorem Symlink_sends wfs env dir req w :
  ReadOnly wfs = false ->
  exists res w' m x reply rest,
    Symlink wfs env dir req w = Done res w' /\
    trace w' = trace w
               ++ Remote (CallCreateEntry (FullPath dir) m [signature wfs]) reply
               :: rest /\
    sent_entries rest = [] /\
    filer_pb.Name m = sNewName req /\
    filer_pb.IsDirectory m = false /\
    filer_pb.Attributes m = Some x /\
    filer_pb.FileMode x = Z.ldiff (Z.lor 511 (Z.shiftl 1 27)) (Umask wfs) /\
    filer_pb.SymlinkTarget x = Target req /\
    (filer_pb.Uid x, filer_pb.Gid x)
    = LocalToFiler (mapper wfs) (sUid req) (sGid req) /\
    filer_pb.Mtime x = clock env (clockPos w) /\
    filer_pb.Crtime x = clock env (S (clockPos w)) /\
    filer_pb.HardLinkId m = [] /\
    filer_pb.Chunks m = [].
Proof.
  intros Hro. rewrite (Symlink_run wfs env dir req w Hro).
  unfold symlink_exchange.
  set (m := message _ _).
  destruct (filer env (CallCreateEntry (FullPath dir) m [signature wfs])) as [e|];
    do 2 eexists; exists m; eexists; do 2 eexists;
    (split; [reflexivity|]); (split; [reflexivity|]);
    cbn; repeat split; try reflexivity;
    unfold translate, set_ids; cbn; symmetry; apply surjective_pairing.
Qed.

Lemma Symlink_sends_witness :
  ReadOnly demo_wfs = false /\
  exists res w' m x reply rest,
    Symlink demo_wfs demo_env demo_dir demo_symlink_request demo_world = Done res w' /\
    trace w' = trace demo_world
               ++ Remote (CallCreateEntry "/d" m [7]) reply :: rest /\
    filer_pb.Attributes m = Some x /\
    (filer_pb.Uid x, filer_pb.Gid x) = (2000, 1000).
Proof.
  split; [reflexivity|].
  destruct (Symlink_sends demo_wfs demo_env demo_dir demo_symlink_request
              demo_world eq_refl)
    as (res & w' & m & x & reply & rest & H1 & H2 & _ & _ & _ & H3 & _ & _ & H4 & _).
  exists res, w', m, x, reply, rest. repeat split; assumption.
Defined.

(** C8, as stated, fails with read-only mode on: [Symlink] then returns no
    node. *)
Lemma symlink_read_only_no_node :
  Symlink demo_wfs_ro demo_env demo_dir demo_symlink_request demo_world
  = Done (None, Some EPERM) demo_world.
Proof. reflexivity. Qed.

(** C8, amended.  Past the read-only check, [Symlink] returns a new file
    node around the entry of its request, with [EIO] next to it exactly when
    the filer refused [CreateEntry].  The entry is not loaded again: the
    lazy loader has no part in the result, and the node's entry is the
    object that was built. *)
Theorem Symlink_returns_node wfs env dir req w :
  ReadOnly wfs = false ->
  let entry := length (entryHeap w) in
  let node := NodeFile {| fName := sNewName req; fDir := dir;
                          fEntry := Some entry |} in
  exists w' m,
    Symlink wfs env dir req w
    = Done (Some node,
            match filer env (CallCreateEntry (FullPath dir) m [signature wfs]) with
            | Some _ => Some EIO
            | None => None
            end) w' /\
    sent_entries (drop (length (trace w)) (trace w')) = [m] /\
    entryHeap w' !! entry = Some (symlink_entry req (length (attrHeap w))) /\
    forall l, Symlink wfs (with_loader env l) dir req w = Symlink wfs env dir req w.
Proof.
  intros Hro entry node. rewrite (Symlink_run wfs env dir req w Hro).
  set (m := message _ _).
  set (x := symlink_exchange env (FullPath dir) m [signature wfs]).
  exists (there_and_back wfs (Some (length (attrHeap w)))
            (symlink_built wfs env w req) x.2), m.
  assert (Hx : x = symlink_exchange env (FullPath dir) m [signature wfs])
    by reflexivity.
  unfold symlink_exchange in Hx.
  split; [|split; [|split]].
  - unfold newFile. fold entry. fold node.
    destruct (filer env (CallCreateEntry (FullPath dir) m [signature wfs]));
      rewrite Hx; reflexivity.
  - cbn [there_and_back after_events trace with_attrHeap symlink_built].
    rewrite drop_app_length.
    destruct (filer env (CallCreateEntry (FullPath dir) m [signature wfs]));
      rewrite Hx; reflexivity.
  - cbn. apply lookup_app_length.
  - intros l. rewrite (Symlink_run wfs (with_loader env l) dir req w Hro).
    reflexivity.
Qed.

Lemma Symlink_returns_node_witness :
  ReadOnly demo_wfs = false /\
  exists w',
    Symlink demo_wfs demo_env_no_create demo_dir demo_symlink_request demo_world
    = Done (Some (NodeFile {| fName := "link1"; fDir := demo_dir;
                              fEntry := Some 2%nat |}), Some EIO) w'.
Proof.
  split; [reflexivity|].
  destruct (Symlink_returns_node demo_wfs demo_env_no_create demo_dir
              demo_symlink_request demo_world eq_refl) as (w' & m & H & _).
  exists w'. exact H.
Defined.

(** ** The identifier mapper *)


(** The end of [Link] returns, and keeps what the heaps hold. *)
Lemma link_return_total env dir req n err w :
  exists res w',
    link_return env dir req n err w = Done res w' /\
    trace w' = trace w /\ metaCache w' = metaCache w /\
    (exists h, attrHeap w' = attrHeap w ++ h) /\
    (exists h, entryHeap w' = entryHeap w ++ h) /\
    (err <> None -> res = (None, Some EIO) /\ w' = w) /\
    (forall nd, res = (Some nd, None) -> err = None).
Proof.
  unfold link_return. destruct err as [e|].
  - exists (None, Some EIO), w.
    repeat split; try (exists []; symmetry; apply app_nil_r); discriminate.
  - destruct (maybeLoadEntry_total env
                {| fName := NewName req; fDir := dir; fEntry := Some n |} w)
      as (f1 & r & err & w1 & Hl & Ht & Hc & _ & _ & Ha & He).
    rewrite (bind_run _ _ _ _ _ Hl). cbn [fst snd].
    destruct err; eexists; exists w1; (split; [reflexivity|]);
      repeat split; try assumption; try congruence.
Qed.






(** ** Link *)

(** C3.  When the filer accepts the update of the existing entry and
    refuses to create the new name, [Link] returns [EIO]; by then the cache
    holds the existing entry with the hard link identifier and the
    incremented counter; nothing was inserted for the new name; and nothing
    is taken back: the trace ends with the refused call, the cache keeps the
    update, the entry in memory keeps its stamp. *)
Theorem Link_partial_failure wfs env dir req f w f1 r w1 p (e : EntryObj) ox err :
  ReadOnly wfs = false ->
  maybeLoadEntry env f w = Done (f1, r, None) w1 ->
  fEntry f1 = Some p ->
  entryHeap w1 !! p = Some e ->
  attrs_at (attrHeap w1) (filer_pb.Attributes e) = Some ox ->
  let e' := stamp env w1 e in
  let sent := translate (LocalToFiler (mapper wfs)) <$> ox in
  let update := CallUpdateEntry (FullPath (fDir f1)) (message e' sent)
                                [signature wfs] in
  let create := CallCreateEntry (FullPath dir) (message (link_entry req e') sent)
                                [signature wfs] in
  filer env update = None ->
  filer env create = Some err ->
  exists w' c,
    Link wfs env dir req (NodeFile f) w = Done (None, Some EIO) w' /\
    trace w' = trace w ++ [Remote update None; CacheUpdate c; Remote create (Some err)] /\
    metaCache w' = <[cFullPath c := c]> (metaCache w) /\
    cFullPath c = NewFullPath (FullPath (fDir f1)) (filer_pb.Name e) /\
    filer_pb.HardLinkId (cEntry c) = filer_pb.HardLinkId e' /\
    filer_pb.HardLinkCounter (cEntry c) = filer_pb.HardLinkCounter e' /\
    filer_pb.HardLinkId e' <> [] /\
    filer_pb.HardLinkCounter e'
    = Go.wrap_int32 ((if Go.is_empty (filer_pb.HardLinkId e) then 1
                      else filer_pb.HardLinkCounter e) + 1) /\
    entryHeap w' !! p = Some e' /\
    (NewFullPath (FullPath dir) (NewName req) <> cFullPath c ->
     metaCache w' !! NewFullPath (FullPath dir) (NewName req)
     = metaCache w !! NewFullPath (FullPath dir) (NewName req)).
Proof.
  intros Hro Hload Hp He Hx e' sent update create Hu Hc.
  rewrite (Link_run wfs env dir req f w f1 r w1 p e ox Hro Hload Hp He Hx).
  fold e'. fold sent. unfold link_exchange. fold update. fold create.
  rewrite Hu, Hc. cbn [fst snd link_return].
  destruct (maybeLoadEntry_total env f w)
    as (f1' & r' & err' & w1' & Hl & Ht & Hm & _).
  rewrite Hload in Hl. injection Hl as <- <- <- <-.
  do 2 eexists. split; [reflexivity|].
  cbn [there_and_back after_events with_attrHeap with_entryHeap
         after_hardlink_mode trace metaCache entryHeap replay foldl].
  rewrite Ht, Hm.
  split; [reflexivity|]. split; [reflexivity|].
  split; [cbn; f_equal; apply (proj1 (stamp_keeps env w1 e))|].
  split; [reflexivity|]. split; [reflexivity|].
  split; [apply stamp_nonempty|].
  split; [unfold e', stamp; destruct (Go.is_empty _); reflexivity|].
  split.
  - apply lookup_app_l_Some. apply list_lookup_insert_eq.
    eapply lookup_lt_Some; eassumption.
  - intros Hne. apply lookup_insert_ne. congruence.
Qed.

Lemma Link_partial_failure_witness :
  exists w' c,
    Link demo_wfs demo_env_no_create demo_dir demo_link_request (NodeFile demo_file)
         demo_world = Done (None, Some EIO) w' /\
    metaCache w' = <[cFullPath c := c]> ∅ /\
    cFullPath c = "/d/a.txt"%string /\
    filer_pb.HardLinkCounter (cEntry c) = 2.
Proof.
  destruct (Link_partial_failure demo_wfs demo_env_no_create demo_dir
              demo_link_request demo_file demo_world demo_file (Some 0%nat)
              demo_world 0%nat demo_entry (Some demo_attrs) (ErrOther "exists")
              eq_refl eq_refl eq_refl eq_refl eq_refl eq_refl eq_refl)
    as (w' & c & H1 & _ & H3 & H4 & _ & H6 & _).
  exists w', c. repeat split; assumption.
Defined.

(** ** The order of remote calls and cache writes *)

Lemma attrs_at_extend h h' oa :
  is_Some (attrs_at h oa) -> is_Some (attrs_at (h ++ h') oa).
Proof.
  unfold attrs_at. destruct oa as [a|]; [|trivial].
  destruct (h !! a) as [x|] eqn:Hx.
  - rewrite (lookup_app_l_Some _ _ _ _ Hx). trivial.
  - intros [? H]. discriminate.
Qed.

Lemma maybeLoadEntry_ok env f w f1 r err w1 :
  heap_ok w -> node_ok w (NodeFile f) ->
  maybeLoadEntry env f w = Done (f1, r, err) w1 ->
  heap_ok w1 /\ node_ok w1 (NodeFile f1).
Proof.
  intros Hh Hn. unfold maybeLoadEntry.
  destruct (loader env f) as [e'| |[m|]].
  - intros [= <- <- <- <-]. split; assumption.
  - intros [= <- <- <- <-]. split; assumption.
  - destruct (filer_pb.Attributes m) as [x|] eqn:Hm.
    + intros [= <- <- <- <-]. cbn. split.
      * intros p e. cbn. intros Hp.
        destruct (decide (p < length (entryHeap w))%nat) as [Hlt|Hge].
        -- rewrite lookup_app_l in Hp by assumption.
           apply attrs_at_extend. eapply Hh; eassumption.
        -- rewrite lookup_app_r in Hp by lia.
           destruct (p - length (entryHeap w))%nat; cbn in Hp; [|discriminate].
           injection Hp as <-. cbn. rewrite lookup_app_length. cbn. eauto.
      * intros p [= <-]. rewrite lookup_app_length. eauto.
    + intros [= <- <- <- <-]. cbn. split.
      * intros p e. cbn. intros Hp.
        destruct (decide (p < length (entryHeap w))%nat) as [Hlt|Hge].
        -- rewrite lookup_app_l in Hp by assumption. eapply Hh; eassumption.
        -- rewrite lookup_app_r in Hp by lia.
           destruct (p - length (entryHeap w))%nat; cbn in Hp; [|discriminate].
           injection Hp as <-. cbn. eauto.
      * intros p [= <-]. rewrite lookup_app_length. eauto.
  - intros [= <- <- <- <-]. split; [assumption|]. intros p. discriminate.
Qed.

Lemma link_exchange_ordered env d1 d2 mo mn s :
  cache_after_remote None (link_exchange env d1 d2 mo mn s).2.
Proof.
  unfold link_exchange.
  destruct (filer env (CallUpdateEntry d1 mo s)); [exact I|].
  destruct (filer env (CallCreateEntry d2 mn s)); cbn;
    repeat split; do 3 eexists; split; reflexivity.
Qed.

Lemma symlink_exchange_ordered env d m s :
  cache_after_remote None (symlink_exchange env d m s).2.
Proof.
  unfold symlink_exchange.
  destruct (filer env (CallCreateEntry d m s)); cbn;
    repeat split; do 3 eexists; split; reflexivity.
Qed.

Lemma emits_nothing {A} (r : Res A) w w' :
  outcome_world r = Some w' -> trace w' = trace w -> metaCache w' = metaCache w ->
  emits r w [].
Proof.
  intros Ho Ht Hm. exists w'. rewrite app_nil_r. repeat split; assumption.
Qed.

Lemma Link_emits wfs env dir req old w :
  heap_ok w -> node_ok w old ->
  emits (Link wfs env dir req old w) w [] \/
  exists d1 d2 mo mn s,
    emits (Link wfs env dir req old w) w (link_exchange env d1 d2 mo mn s).2.
Proof.
  intros Hh Hn.
  destruct (ReadOnly wfs) eqn:Hro.
  { left. rewrite (Link_read_only wfs env dir req old w Hro).
    eapply emits_nothing; reflexivity. }
  destruct old as [f|d].
  2:{ left. rewrite (Link_not_a_file wfs env dir req d w Hro).
      eapply emits_nothing; reflexivity. }
  destruct (maybeLoadEntry_total env f w)
    as (f1 & r & err & w1 & Hl & Ht & Hm & _).
  destruct (maybeLoadEntry_ok env f w f1 r err w1 Hh Hn Hl) as [Hh1 Hn1].
  destruct err as [err|].
  { left. unfold Link. rewrite Hro, (bind_run _ _ _ _ _ Hl). cbn [fst snd].
    eapply emits_nothing; [reflexivity|assumption..]. }
  destruct (fEntry f1) as [p|] eqn:Hp.
  2:{ left. unfold Link. rewrite Hro, (bind_run _ _ _ _ _ Hl). cbn [fst snd].
      unfold getEntry. rewrite Hp.
      eapply emits_nothing; [reflexivity|assumption..]. }
  destruct (Hn1 p Hp) as [e He].
  destruct (Hh1 p e He) as [ox Hx].
  right.
  rewrite (Link_run wfs env dir req f w f1 r w1 p e ox Hro Hl Hp He Hx).
  do 5 eexists.
  set (x := link_exchange _ _ _ _ _ _).
  set (w4 := there_and_back _ _ _ _).
  destruct (link_return_total env dir req (length (entryHeap w1)) x.1 w4)
    as (res & w' & Hret & Ht' & Hm' & _).
  rewrite Hret. exists w'. split; [reflexivity|].
  rewrite Ht', Hm'. cbn. rewrite Ht, Hm. split; reflexivity.
Qed.

Lemma Symlink_emits wfs env dir req w :
  emits (Symlink wfs env dir req w) w [] \/
  exists d m s, emits (Symlink wfs env dir req w) w (symlink_exchange env d m s).2.
Proof.
  destruct (ReadOnly wfs) eqn:Hro.
  - left. rewrite (Symlink_read_only wfs env dir req w Hro).
    eapply emits_nothing; reflexivity.
  - right. rewrite (Symlink_run wfs env dir req w Hro).
    do 3 eexists. eexists. split; [reflexivity|]. split; reflexivity.
Qed.

(** A call the filer refused is not followed by a cache write. *)
Lemma refused_call_not_cached evs :
  forall last i c e,
    cache_after_remote last evs ->
    evs !! i = Some (Remote c (Some e)) ->
    match evs !! S i with
    | Some (CacheUpdate _) | Some (CacheInsert _) => False
    | _ => True
    end.
Proof.
  induction evs as [|ev evs IH]; intros last i c e Hord Hi; [discriminate|].
  destruct i as [|i].
  - cbn in Hi. injection Hi as ->. cbn in Hord. cbn.
    destruct evs as [|[c' r'|x|x] rest]; cbn; trivial.
    + cbn in Hord. destruct Hord as [(d & m & s & Heq & _) _]. discriminate.
    + cbn in Hord. destruct Hord as [(d & m & s & Heq & _) _]. discriminate.
  - cbn in Hi. change ((ev :: evs) !! S (S i)) with (evs !! S i).
    destruct ev as [c' r'|x|x]; cbn in Hord.
    + eapply IH; eassumption.
    + destruct Hord as [_ Hord]. eapply IH; eassumption.
    + destruct Hord as [_ Hord]. eapply IH; eassumption.
Qed.

(** C2.  In every run of [Link] and of [Symlink], each write to the cache
    comes directly after the remote call for the same directory and entry,
    and that call returned without error; a call the filer refused is not
    followed by a cache write.  The cache changes only through these
    writes. *)
Theorem cache_writes_follow_remote wfs env dir w :
  heap_ok w ->
  (forall req old,
      node_ok w old ->
      exists evs,
        emits (Link wfs env dir req old w) w evs /\
        cache_after_remote None evs /\
        forall i c e, evs !! i = Some (Remote c (Some e)) ->
                      match evs !! S i with
                      | Some (CacheUpdate _) | Some (CacheInsert _) => False
                      | _ => True
                      end) /\
  (forall req,
      exists evs,
        emits (Symlink wfs env dir req w) w evs /\
        cache_after_remote None evs /\
        forall i c e, evs !! i = Some (Remote c (Some e)) ->
                      match evs !! S i with
                      | Some (CacheUpdate _) | Some (CacheInsert _) => False
                      | _ => True
                      end).
Proof.
  intros Hh. split.
  - intros req old Hn.
    destruct (Link_emits wfs env dir req old w Hh Hn)
      as [H|(d1 & d2 & mo & mn & s & H)].
    + exists []. split; [exact H|]. split; [exact I|]. intros i c e Hi.
      discriminate.
    + eexists. split; [exact H|].
      pose proof (link_exchange_ordered env d1 d2 mo mn s) as Hord.
      split; [exact Hord|]. intros i c e Hi.
      eapply refused_call_not_cached; eassumption.
  - intros req.
    destruct (Symlink_emits wfs env dir req w) as [H|(d & m & s & H)].
    + exists []. split; [exact H|]. split; [exact I|]. intros i c e Hi.
      discriminate.
    + eexists. split; [exact H|].
      pose proof (symlink_exchange_ordered env d m s) as Hord.
      split; [exact Hord|]. intros i c e Hi.
      eapply refused_call_not_cached; eassumption.
Qed.

Lemma demo_world_ok : heap_ok demo_world /\ node_ok demo_world (NodeFile demo_file).
Proof.
  split.
  - intros [|[|p]] e; cbn; intros [= <-]; cbn; eauto.
  - intros p [= <-]. cbn. eauto.
Qed.

Lemma cache_writes_follow_remote_witness :
  heap_ok demo_world /\
  exists evs,
    emits (Link demo_wfs demo_env_no_create demo_dir demo_link_request
                (NodeFile demo_file) demo_world) demo_world evs /\
    cache_after_remote None evs.
Proof.
  split; [exact (proj1 demo_world_ok)|].
  destruct (cache_writes_follow_remote demo_wfs demo_env_no_create demo_dir
              demo_world (proj1 demo_world_ok)) as [HL _].
  destruct (HL demo_link_request (NodeFile demo_file) (proj2 demo_world_ok))
    as (evs & He & Ho & _).
  exists evs. split; assumption.
Defined.

(** ** Hard link identity and counter *)



Lemma wrap_int32_small z : - 2 ^ 31 <= z < 2 ^ 31 -> Go.wrap_int32 z = z.
Proof. intros H. unfold Go.wrap_int32. rewrite Z.mod_small; lia. Qed.







(** * More of the package's behaviour *)

(** ** What a call to Link leaves behind *)

Lemma link_return_keeps env dir req n err w :
  exists res w',
    link_return env dir req n err w = Done res w' /\
    trace w' = trace w /\ metaCache w' = metaCache w /\
    randomPos w' = randomPos w /\ clockPos w' = clockPos w /\
    (exists h, attrHeap w' = attrHeap w ++ h) /\
    (exists h, entryHeap w' = entryHeap w ++ h) /\
    (err <> None -> res = (None, Some EIO) /\ w' = w) /\
    (forall nd, res = (Some nd, None) -> err = None).
Proof.
  unfold link_return. destruct err as [e|].
  - exists (None, Some EIO), w.
    repeat split; try (exists []; symmetry; apply app_nil_r); discriminate.
  - destruct (maybeLoadEntry_total env
                {| fName := NewName req; fDir := dir; fEntry := Some n |} w)
      as (f1 & r & err & w1 & Hl & Ht & Hc & Hr & Hk & Ha & He).
    rewrite (bind_run _ _ _ _ _ Hl). cbn [fst snd].
    destruct err; eexists; exists w1; (split; [reflexivity|]);
      repeat split; try assumption; try congruence.
Qed.

(** [Link] from a loaded source entry always returns; its effects, by the
    exchange with the filer. *)
Lemma Link_outcome wfs env dir req f w f1 r w1 p (e : EntryObj) ox :
  ReadOnly wfs = false ->
  maybeLoadEntry env f w = Done (f1, r, None) w1 ->
  fEntry f1 = Some p ->
  entryHeap w1 !! p = Some e ->
  attrs_at (attrHeap w1) (filer_pb.Attributes e) = Some ox ->
  let e' := stamp env w1 e in
  let ne := link_entry req e' in
  let sent := translate (LocalToFiler (mapper wfs)) <$> ox in
  let x := link_exchange env (FullPath (fDir f1)) (FullPath dir)
             (message e' sent) (message ne sent) [signature wfs] in
  exists res w',
    Link wfs env dir req (NodeFile f) w = Done res w' /\
    trace w' = trace w ++ x.2 /\
    metaCache w' = replay x.2 (metaCache w) /\
    (exists h, attrHeap w'
               = map_ids (FilerToLocal (mapper wfs)) (filer_pb.Attributes e)
                   (map_ids (LocalToFiler (mapper wfs)) (filer_pb.Attributes e)
                      (attrHeap w1)) ++ h) /\
    (exists h, entryHeap w' = (<[p := e']> (entryHeap w1) ++ [ne]) ++ h) /\
    randomPos w' = (if Go.is_empty (filer_pb.HardLinkId e)
                    then (randomPos w1 + 16)%nat else randomPos w1) /\
    clockPos w' = clockPos w /\
    (x.1 <> None -> res = (None, Some EIO)) /\
    (forall nd, res = (Some nd, None) -> x.1 = None).
Proof.
  intros Hro Hload Hp He Hx e' ne sent x.
  rewrite (Link_run wfs env dir req f w f1 r w1 p e ox Hro Hload Hp He Hx).
  fold e' ne sent x.
  set (w4 := there_and_back _ _ _ _).
  destruct (link_return_keeps env dir req (length (entryHeap w1)) x.1 w4)
    as (res & w' & Hret & Ht & Hm & Hr & Hk & Ha & Hh & Herr & Hok).
  destruct (maybeLoadEntry_total env f w)
    as (f1' & r' & err' & w1' & Hl & Ht1 & Hm1 & _ & Hk1 & _).
  rewrite Hload in Hl. injection Hl as <- <- <- <-.
  exists res, w'. split; [exact Hret|].
  rewrite Ht, Hm, Hr, Hk. unfold w4.
  cbn [there_and_back after_events with_attrHeap with_entryHeap
         after_hardlink_mode trace metaCache randomPos clockPos].
  rewrite Ht1, Hm1, Hk1.
  repeat split; try reflexivity; try assumption.
  intros Hne. apply Herr. exact Hne.
Qed.

(** X1.  When the lazy load of the source reports an error, [Link] hands
    that error on as it is; when the load succeeds and the node still has
    no entry, [Link] returns [EIO].  In both cases [Link] ends in the world
    the load left: nothing was stamped, sent or cached, and the random
    source was not read. *)
Theorem Link_source_unavailable wfs env dir req f w f1 r err w1 :
  ReadOnly wfs = false ->
  maybeLoadEntry env f w = Done (f1, r, err) w1 ->
  (forall e, err = Some e ->
             Link wfs env dir req (NodeFile f) w = Done (None, Some e) w1) /\
  (err = None -> fEntry f1 = None ->
   Link wfs env dir req (NodeFile f) w = Done (None, Some EIO) w1) /\
  trace w1 = trace w /\ metaCache w1 = metaCache w /\
  randomPos w1 = randomPos w.
Proof.
  intros Hro Hload.
  destruct (maybeLoadEntry_total env f w)
    as (f1' & r' & err' & w1' & Hl & Ht & Hm & Hr & _).
  rewrite Hload in Hl. injection Hl as <- <- <- <-.
  split; [|split; [|repeat split; assumption]].
  - intros e ->. unfold Link. rewrite Hro, (bind_run _ _ _ _ _ Hload).
    reflexivity.
  - intros -> Hnil. unfold Link. rewrite Hro, (bind_run _ _ _ _ _ Hload).
    cbn [fst snd]. unfold getEntry. rewrite Hnil. reflexivity.
Qed.

Lemma Link_source_unavailable_witness :
  Link demo_wfs demo_env_load_error demo_dir demo_link_request
       (NodeFile demo_file) demo_world
  = Done (None, Some (ErrOther "lookup failed")) demo_world /\
  Link demo_wfs demo_env demo_dir demo_link_request
       (NodeFile demo_unloaded_file) demo_world
  = Done (None, Some EIO) demo_world.
Proof.
  split.
  - apply (Link_source_unavailable demo_wfs demo_env_load_error demo_dir
             demo_link_request demo_file demo_world demo_file None
             (Some (ErrOther "lookup failed")) demo_world eq_refl eq_refl).
    reflexivity.
  - apply (Link_source_unavailable demo_wfs demo_env demo_dir
             demo_link_request demo_unloaded_file demo_world demo_unloaded_file
             None None demo_world eq_refl eq_refl); reflexivity.
Defined.

(** X2.  [Link] stamps the source entry in memory before it talks to the
    filer.  When the filer refuses the update, [Link] returns [EIO] after
    that one call, the cache is as it was, and the entry in memory keeps the
    identifier and the incremented counter; the entry for the new name was
    already allocated, and a first link has used up 16 random bytes. *)
Theorem Link_update_refused wfs env dir req f w f1 r w1 p (e : EntryObj) ox err :
  ReadOnly wfs = false ->
  maybeLoadEntry env f w = Done (f1, r, None) w1 ->
  fEntry f1 = Some p ->
  entryHeap w1 !! p = Some e ->
  attrs_at (attrHeap w1) (filer_pb.Attributes e) = Some ox ->
  let e' := stamp env w1 e in
  let sent := translate (LocalToFiler (mapper wfs)) <$> ox in
  let update := CallUpdateEntry (FullPath (fDir f1)) (message e' sent)
                                [signature wfs] in
  filer env update = Some err ->
  exists w',
    Link wfs env dir req (NodeFile f) w = Done (None, Some EIO) w' /\
    trace w' = trace w ++ [Remote update (Some err)] /\
    metaCache w' = metaCache w /\
    entryHeap w' !! p = Some e' /\
    filer_pb.HardLinkId e' <> [] /\
    filer_pb.HardLinkCounter e'
    = Go.wrap_int32 ((if Go.is_empty (filer_pb.HardLinkId e) then 1
                      else filer_pb.HardLinkCounter e) + 1) /\
    entryHeap w' !! length (entryHeap w1) = Some (link_entry req e') /\
    randomPos w' = (if Go.is_empty (filer_pb.HardLinkId e)
                    then (randomPos w1 + 16)%nat else randomPos w1).
Proof.
  intros Hro Hload Hp He Hx e' sent update Hu.
  destruct (Link_outcome wfs env dir req f w f1 r w1 p e ox Hro Hload Hp He Hx)
    as (res & w' & HL & Ht & Hm & _ & [h Hh] & Hr & _ & Herr & _).
  fold e' sent in HL, Ht, Hm, Hh, Herr.
  unfold link_exchange in Ht, Hm, Herr. fold update in Ht, Hm, Herr.
  rewrite Hu in Ht, Hm, Herr. cbn [fst snd] in Ht, Hm, Herr.
  rewrite (Herr ltac:(discriminate)) in HL.
  assert (Hlt : (p < length (entryHeap w1))%nat) by (eapply lookup_lt_Some; eauto).
  exists w'. split; [exact HL|]. split; [exact Ht|]. split; [exact Hm|].
  split; [|split; [|split; [|split]]].
  - rewrite Hh. do 2 apply lookup_app_l_Some.
    apply list_lookup_insert_eq. exact Hlt.
  - apply stamp_nonempty.
  - unfold e', stamp. destruct (Go.is_empty _); reflexivity.
  - rewrite Hh. apply lookup_app_l_Some.
    rewrite <- (length_insert (entryHeap w1) p e'). apply lookup_app_length.
  - exact Hr.
Qed.

Lemma Link_update_refused_witness :
  exists w' (e' : EntryObj),
    Link demo_wfs demo_env_refusing demo_dir demo_link_request
         (NodeFile demo_file) demo_world = Done (None, Some EIO) w' /\
    metaCache w' = ∅ /\
    entryHeap w' !! 0%nat = Some e' /\
    filer_pb.HardLinkCounter e' = 2 /\
    randomPos w' = 16%nat.
Proof.
  destruct (Link_update_refused demo_wfs demo_env_refusing demo_dir
              demo_link_request demo_file demo_world demo_file (Some 0%nat)
              demo_world 0%nat demo_entry (Some demo_attrs)
              (ErrOther "unavailable")
              eq_refl eq_refl eq_refl eq_refl eq_refl eq_refl)
    as (w' & HL & _ & Hm & He & _ & Hc & _ & Hr).
  exists w', (stamp demo_env_refusing demo_world demo_entry).
  repeat split; assumption.
Defined.

Lemma translate_keeps f x :
  filer_pb.Mtime (translate f x) = filer_pb.Mtime x /\
  filer_pb.Crtime (translate f x) = filer_pb.Crtime x /\
  filer_pb.FileMode (translate f x) = filer_pb.FileMode x /\
  filer_pb.SymlinkTarget (translate f x) = filer_pb.SymlinkTarget x.
Proof. repeat split. Qed.

Lemma map_ids_other f oa h b :
  oa <> Some b -> map_ids f oa h !! b = h !! b.
Proof.
  intros Hne. unfold map_ids. destruct oa as [a|]; [|reflexivity].
  destruct (h !! a); [|reflexivity].
  apply list_lookup_insert_ne. congruence.
Qed.

Lemma map_ids_at f a h x :
  h !! a = Some x -> map_ids f (Some a) h !! a = Some (translate f x).
Proof.
  intros Hx. unfold map_ids. rewrite Hx.
  apply list_lookup_insert_eq. eapply lookup_lt_Some; eassumption.
Qed.

(** X3.  [Link] hands only the new entry to the identifier mapping, but the
    new entry shares its attributes with the existing one.  So the update
    request for the existing entry goes out with the owner and group
    already mapped to the filer's space, and when the filer accepts it the
    copy written to the cache carries the mapped owner and group too. *)
Theorem Link_existing_entry_mapped wfs env dir req f w f1 r w1 p (e : EntryObj) a x :
  ReadOnly wfs = false ->
  maybeLoadEntry env f w = Done (f1, r, None) w1 ->
  fEntry f1 = Some p ->
  entryHeap w1 !! p = Some e ->
  filer_pb.Attributes e = Some a ->
  attrHeap w1 !! a = Some x ->
  exists res w' mo y reply rest,
    Link wfs env dir req (NodeFile f) w = Done res w' /\
    trace w' = trace w
               ++ Remote (CallUpdateEntry (FullPath (fDir f1)) mo [signature wfs])
                         reply :: rest /\
    filer_pb.Name mo = filer_pb.Name e /\
    filer_pb.Attributes mo = Some y /\
    (filer_pb.Uid y, filer_pb.Gid y)
    = LocalToFiler (mapper wfs) (filer_pb.Uid x) (filer_pb.Gid x) /\
    (reply = None ->
     exists c rest', rest = CacheUpdate c :: rest' /\ cEntry c = mo /\
                     cFullPath c = NewFullPath (FullPath (fDir f1)) (filer_pb.Name e)).
Proof.
  intros Hro Hload Hp He Ha Hx.
  assert (Hox : attrs_at (attrHeap w1) (filer_pb.Attributes e) = Some (Some x)).
  { rewrite Ha. cbn. rewrite Hx. reflexivity. }
  destruct (Link_outcome wfs env dir req f w f1 r w1 p e (Some x)
              Hro Hload Hp He Hox)
    as (res & w' & HL & Ht & _).
  exists res, w'.
  exists (message (stamp env w1 e)
                  (Some (translate (LocalToFiler (mapper wfs)) x))).
  exists (translate (LocalToFiler (mapper wfs)) x).
  unfold link_exchange in Ht. cbn [fmap option_fmap option_map] in Ht.
  set (mo := message (stamp env w1 e) _) in *.
  destruct (filer env (CallUpdateEntry (FullPath (fDir f1)) mo [signature wfs]))
    as [err|] eqn:Hu.
  - exists (Some err), []. split; [exact HL|]. split; [exact Ht|].
    split; [apply (stamp_keeps env w1 e)|]. split; [reflexivity|].
    split; [symmetry; apply surjective_pairing|]. discriminate.
  - destruct (filer env (CallCreateEntry _ _ _)) as [err|];
      eexists None, _; (split; [exact HL|]); (split; [exact Ht|]);
      (split; [apply (stamp_keeps env w1 e)|]); (split; [reflexivity|]);
      (split; [symmetry; apply surjective_pairing|]);
      intros _; do 2 eexists; (split; [reflexivity|]);
      (split; [reflexivity|]); cbn; f_equal; apply (stamp_keeps env w1 e).
Qed.

Lemma Link_existing_entry_mapped_witness :
  exists res w' mo y reply rest,
    Link demo_wfs demo_env demo_dir demo_link_request (NodeFile demo_file)
         demo_world = Done res w' /\
    trace w' = Remote (CallUpdateEntry "/d" mo [7]) reply :: rest /\
    filer_pb.Attributes mo = Some y /\
    (filer_pb.Uid y, filer_pb.Gid y) = (2000, 200).
Proof.
  destruct (Link_existing_entry_mapped demo_wfs demo_env demo_dir
              demo_link_request demo_file demo_world demo_file (Some 0%nat)
              demo_world 0%nat demo_entry 0%nat demo_attrs
              eq_refl eq_refl eq_refl eq_refl eq_refl eq_refl)
    as (res & w' & mo & y & reply & rest & HL & Ht & _ & Ha & Hids & _).
  exists res, w', mo, y, reply, rest. repeat split; assumption.
Defined.

(** X4.  Whatever the filer replies, [Link] from a loaded source entry
    returns, and leaves every other entry object and every other attributes
    object as it was.  Of the source entry it changes only [HardLinkId] and
    [HardLinkCounter]; of the source's attributes it can change only owner
    and group. *)
Theorem Link_frame wfs env dir req f w f1 r w1 p (e : EntryObj) ox :
  ReadOnly wfs = false ->
  maybeLoadEntry env f w = Done (f1, r, None) w1 ->
  fEntry f1 = Some p ->
  entryHeap w1 !! p = Some e ->
  attrs_at (attrHeap w1) (filer_pb.Attributes e) = Some ox ->
  exists res w' (e' : EntryObj),
    Link wfs env dir req (NodeFile f) w = Done res w' /\
    (forall q, q <> p -> (q < length (entryHeap w1))%nat ->
               entryHeap w' !! q = entryHeap w1 !! q) /\
    (forall b, filer_pb.Attributes e <> Some b -> (b < length (attrHeap w1))%nat ->
               attrHeap w' !! b = attrHeap w1 !! b) /\
    entryHeap w' !! p = Some e' /\
    filer_pb.Name e' = filer_pb.Name e /\
    filer_pb.IsDirectory e' = filer_pb.IsDirectory e /\
    filer_pb.Attributes e' = filer_pb.Attributes e /\
    filer_pb.Chunks e' = filer_pb.Chunks e /\
    filer_pb.Extended e' = filer_pb.Extended e /\
    (forall a x, filer_pb.Attributes e = Some a -> attrHeap w1 !! a = Some x ->
       exists y, attrHeap w' !! a = Some y /\
                 filer_pb.Mtime y = filer_pb.Mtime x /\
                 filer_pb.Crtime y = filer_pb.Crtime x /\
                 filer_pb.FileMode y = filer_pb.FileMode x /\
                 filer_pb.SymlinkTarget y = filer_pb.SymlinkTarget x).
Proof.
  intros Hro Hload Hp He Hx.
  destruct (Link_outcome wfs env dir req f w f1 r w1 p e ox Hro Hload Hp He Hx)
    as (res & w' & HL & _ & _ & [ha Ha] & [hh Hh] & _).
  assert (Hlt : (p < length (entryHeap w1))%nat) by (eapply lookup_lt_Some; eauto).
  exists res, w', (stamp env w1 e). split; [exact HL|].
  split; [|split; [|split; [|repeat (split; [apply (stamp_keeps env w1 e)|])]]].
  - intros q Hq Hql. rewrite Hh.
    rewrite !lookup_app_l by (rewrite ?length_app, ?length_insert; lia).
    apply list_lookup_insert_ne. congruence.
  - intros b Hb Hbl. rewrite Ha.
    assert (Hlen : forall f oa (h : list FuseAttributes),
               length (map_ids f oa h) = length h).
    { intros g oa h. unfold map_ids. destruct oa as [c|]; [|reflexivity].
      destruct (h !! c); [apply length_insert | reflexivity]. }
    rewrite lookup_app_l by (rewrite !Hlen; exact Hbl).
    rewrite !map_ids_other by assumption. reflexivity.
  - rewrite Hh. do 2 apply lookup_app_l_Some.
    apply list_lookup_insert_eq. exact Hlt.
  - intros a x Hea Hax. rewrite Ha, Hea.
    eexists. split.
    + apply lookup_app_l_Some. apply map_ids_at. apply map_ids_at. exact Hax.
    + repeat split.
Qed.

Lemma Link_frame_witness :
  exists res w',
    Link demo_wfs demo_env_no_create demo_dir demo_link_request
         (NodeFile demo_file) demo_world = Done res w' /\
    entryHeap w' !! 1%nat = Some demo_link_entry /\
    attrHeap w' !! 1%nat = Some demo_link_attrs.
Proof.
  destruct (Link_frame demo_wfs demo_env_no_create demo_dir demo_link_request
              demo_file demo_world demo_file (Some 0%nat) demo_world 0%nat
              demo_entry (Some demo_attrs)
              eq_refl eq_refl eq_refl eq_refl eq_refl)
    as (res & w' & e' & HL & Hq & Hb & _).
  exists res, w'. split; [exact HL|]. split.
  - apply (Hq 1%nat); [discriminate | cbn; lia].
  - apply (Hb 1%nat); [discriminate | cbn; lia].
Defined.

(** X5.  The last step of [Link] loads the new node once more, after both
    remote calls and both cache writes.  When that load fails, [Link]
    returns the load's error and no node, although the new name by then
    exists at the filer and in the cache. *)
Theorem Link_reload_error wfs env dir req f w f1 r w1 p (e : EntryObj) ox err :
  ReadOnly wfs = false ->
  maybeLoadEntry env f w = Done (f1, r, None) w1 ->
  fEntry f1 = Some p ->
  entryHeap w1 !! p = Some e ->
  attrs_at (attrHeap w1) (filer_pb.Attributes e) = Some ox ->
  let e' := stamp env w1 e in
  let ne := link_entry req e' in
  let sent := translate (LocalToFiler (mapper wfs)) <$> ox in
  let update := CallUpdateEntry (FullPath (fDir f1)) (message e' sent)
                                [signature wfs] in
  let create := CallCreateEntry (FullPath dir) (message ne sent)
                                [signature wfs] in
  filer env update = None ->
  filer env create = None ->
  loader env {| fName := NewName req; fDir := dir;
                fEntry := Some (length (entryHeap w1)) |} = LoadError err ->
  exists w',
    Link wfs env dir req (NodeFile f) w = Done (None, Some err) w' /\
    trace w' = trace w
               ++ [Remote update None;
                   CacheUpdate (cached (FullPath (fDir f1)) (message e' sent));
                   Remote create None;
                   CacheInsert (cached (FullPath dir) (message ne sent))] /\
    metaCache w' !! NewFullPath (FullPath dir) (NewName req)
    = Some (cached (FullPath dir) (message ne sent)).
Proof.
  intros Hro Hload Hp He Hx e' ne sent update create Hu Hc Hl.
  rewrite (Link_run wfs env dir req f w f1 r w1 p e ox Hro Hload Hp He Hx).
  fold e' ne sent. unfold link_exchange. fold update create.
  rewrite Hu, Hc. cbn [fst snd link_return].
  assert (Hml : forall w0,
             maybeLoadEntry env {| fName := NewName req; fDir := dir;
                                   fEntry := Some (length (entryHeap w1)) |} w0
             = Done ({| fName := NewName req; fDir := dir;
                        fEntry := Some (length (entryHeap w1)) |}, None, Some err)
                    w0).
  { intros w0. unfold maybeLoadEntry. rewrite Hl. reflexivity. }
  rewrite (bind_run _ _ _ _ _ (Hml _)). cbn [fst snd].
  destruct (maybeLoadEntry_total env f w)
    as (f1' & r' & err' & w1' & Hl' & Ht & _).
  rewrite Hload in Hl'. injection Hl' as <- <- <- <-.
  eexists. split; [reflexivity|]. split.
  - cbn. rewrite Ht. reflexivity.
  - cbn. apply lookup_insert_eq.
Qed.

Lemma Link_reload_error_witness :
  exists w' c,
    Link demo_wfs demo_env_no_reload demo_dir demo_link_request
         (NodeFile demo_file) demo_world
    = Done (None, Some (ErrOther "lookup failed")) w' /\
    metaCache w' !! "/d/b.txt"%string = Some c.
Proof.
  destruct (Link_reload_error demo_wfs demo_env_no_reload demo_dir
              demo_link_request demo_file demo_world demo_file (Some 0%nat)
              demo_world 0%nat demo_entry (Some demo_attrs)
              (ErrOther "lookup failed")
              eq_refl eq_refl eq_refl eq_refl eq_refl eq_refl eq_refl eq_refl)
    as (w' & HL & _ & Hc).
  exists w'. eexists. split; [exact HL | exact Hc].
Defined.

(** X6.  After a successful [Link] the cache answers for both names: under
    the new full path it holds the new entry, and under the existing full
    path, when that is a different path, the existing entry; both with the
    same hard link identifier and counter.  When the new path is the
    existing path, the new entry is what the cache holds there. *)
Theorem Link_cache_lookup wfs env dir req f w f1 r w1 p (e : EntryObj) nd w' :
  maybeLoadEntry env f w = Done (f1, r, None) w1 ->
  fEntry f1 = Some p ->
  entryHeap w1 !! p = Some e ->
  Link wfs env dir req (NodeFile f) w = Done (Some nd, None) w' ->
  let newPath := NewFullPath (FullPath dir) (NewName req) in
  let oldPath := NewFullPath (FullPath (fDir f1)) (filer_pb.Name e) in
  exists cn co,
    metaCache w' !! newPath = Some cn /\
    filer_pb.Name (cEntry cn) = NewName req /\
    cDirectory cn = FullPath dir /\
    filer_pb.Name (cEntry co) = filer_pb.Name e /\
    cDirectory co = FullPath (fDir f1) /\
    filer_pb.HardLinkId (cEntry cn) = filer_pb.HardLinkId (cEntry co) /\
    filer_pb.HardLinkCounter (cEntry cn) = filer_pb.HardLinkCounter (cEntry co) /\
    filer_pb.Attributes (cEntry cn) = filer_pb.Attributes (cEntry co) /\
    filer_pb.HardLinkId (cEntry cn) <> [] /\
    (oldPath <> newPath -> metaCache w' !! oldPath = Some co) /\
    (forall q, q <> oldPath -> q <> newPath ->
               metaCache w' !! q = metaCache w !! q).
Proof.
  intros Hload Hp He HL newPath oldPath.
  destruct (ReadOnly wfs) eqn:Hro.
  { rewrite (Link_read_only wfs env dir req _ w Hro) in HL. discriminate. }
  destruct (attrs_at (attrHeap w1) (filer_pb.Attributes e)) as [ox|] eqn:Hx.
  2:{ rewrite (Link_dangling wfs env dir req f w f1 r w1 p e Hro Hload Hp He Hx)
        in HL. discriminate. }
  destruct (Link_outcome wfs env dir req f w f1 r w1 p e ox Hro Hload Hp He Hx)
    as (res & w'' & HL' & _ & Hm & _ & _ & _ & _ & _ & Hok).
  rewrite HL' in HL. injection HL as -> ->.
  specialize (Hok nd eq_refl).
  set (sent := translate (LocalToFiler (mapper wfs)) <$> ox) in *.
  set (mo := message (stamp env w1 e) sent) in *.
  set (mn := message (link_entry req (stamp env w1 e)) sent) in *.
  unfold link_exchange in Hm, Hok.
  destruct (filer env (CallUpdateEntry _ mo _)); [discriminate|].
  destruct (filer env (CallCreateEntry _ mn _)); [discriminate|].
  cbn [snd replay foldl] in Hm.
  assert (Hold : cFullPath (cached (FullPath (fDir f1)) mo) = oldPath).
  { cbn. unfold oldPath. f_equal. apply (stamp_keeps env w1 e). }
  assert (Hnew : cFullPath (cached (FullPath dir) mn) = newPath) by reflexivity.
  rewrite Hold, Hnew in Hm.
  exists (cached (FullPath dir) mn), (cached (FullPath (fDir f1)) mo).
  rewrite Hm.
  split; [apply lookup_insert_eq|].
  split; [reflexivity|]. split; [reflexivity|].
  split; [apply (stamp_keeps env w1 e)|]. split; [reflexivity|].
  split; [reflexivity|]. split; [reflexivity|]. split; [reflexivity|].
  split; [apply stamp_nonempty|]. split.
  - intros Hne. rewrite lookup_insert_ne by congruence. apply lookup_insert_eq.
  - intros q Hq1 Hq2. rewrite !lookup_insert_ne by congruence. reflexivity.
Qed.

Lemma Link_cache_lookup_witness :
  exists w' cn,
    metaCache w' !! "/d/b.txt"%string = Some cn /\
    filer_pb.Name (cEntry cn) = "b.txt"%string /\
    filer_pb.HardLinkId (cEntry cn) <> [].
Proof.
  destruct (Link demo_wfs demo_env demo_dir demo_link_request
                 (NodeFile demo_file) demo_world)
    as [[[nd|] [err|]] w'|w'|] eqn:HL;
    try (vm_compute in HL; discriminate).
  destruct (Link_cache_lookup demo_wfs demo_env demo_dir demo_link_request
              demo_file demo_world demo_file (Some 0%nat) demo_world 0%nat
              demo_entry nd w' eq_refl eq_refl eq_refl HL)
    as (cn & co & H1 & H2 & _ & _ & _ & _ & _ & _ & H9 & _).
  exists w', cn. repeat split; assumption.
Defined.

(** ** What a call to Symlink leaves behind *)

Lemma map_ids_new f (h : list FuseAttributes) x :
  map_ids f (Some (length h)) (h ++ [x]) = h ++ [translate f x].
Proof.
  unfold map_ids. rewrite lookup_app_length.
  rewrite insert_app_r_alt by lia. rewrite Nat.sub_diag. reflexivity.
Qed.

(** X7.  When the filer accepts, [Symlink] leaves the new entry in the
    cache under "directory/name", with the requested target and with owner
    and group in the filer's space (the cache is written before the
    identifiers are mapped back), and no other key of the cache changes.
    When the filer refuses, whatever its error, [Symlink] reports [EIO] and
    the cache is as it was. *)
Theorem Symlink_cache wfs env dir req w :
  ReadOnly wfs = false ->
  let m := message (symlink_entry req (length (attrHeap w)))
             (Some (translate (LocalToFiler (mapper wfs))
                              (symlink_attributes wfs env w req))) in
  let path := NewFullPath (FullPath dir) (sNewName req) in
  exists node w',
    match filer env (CallCreateEntry (FullPath dir) m [signature wfs]) with
    | None =>
        Symlink wfs env dir req w = Done (Some node, None) w' /\
        exists c y,
          metaCache w' !! path = Some c /\
          cDirectory c = FullPath dir /\
          filer_pb.Name (cEntry c) = sNewName req /\
          filer_pb.Attributes (cEntry c) = Some y /\
          filer_pb.SymlinkTarget y = Target req /\
          (filer_pb.Uid y, filer_pb.Gid y)
          = LocalToFiler (mapper wfs) (sUid req) (sGid req) /\
          forall q, q <> path -> metaCache w' !! q = metaCache w !! q
    | Some _ =>
        Symlink wfs env dir req w = Done (Some node, Some EIO) w' /\
        metaCache w' = metaCache w
    end.
Proof.
  intros Hro m path. rewrite (Symlink_run wfs env dir req w Hro).
  fold m. unfold symlink_exchange.
  destruct (filer env (CallCreateEntry (FullPath dir) m [signature wfs])) as [e|].
  - do 2 eexists. split; reflexivity.
  - do 2 eexists. split; [reflexivity|].
    exists (cached (FullPath dir) m). eexists.
    cbn [there_and_back after_events metaCache replay foldl snd with_attrHeap
           symlink_built].
    split; [apply lookup_insert_eq|].
    split; [reflexivity|]. split; [reflexivity|]. split; [reflexivity|].
    split; [reflexivity|].
    split; [unfold translate, set_ids; cbn; symmetry; apply surjective_pairing|].
    intros q Hq. apply lookup_insert_ne. intros Heq. apply Hq.
    rewrite <- Heq. reflexivity.
Qed.

Lemma Symlink_cache_witness :
  exists node w' c,
    Symlink demo_wfs demo_env demo_dir demo_symlink_request demo_world
    = Done (Some node, None) w' /\
    metaCache w' !! "/d/link1"%string = Some c /\
    filer_pb.Name (cEntry c) = "link1"%string.
Proof.
  destruct (Symlink_cache demo_wfs demo_env demo_dir demo_symlink_request
              demo_world eq_refl)
    as (node & w' & HS & c & y & Hc & _ & Hn & _).
  exists node, w', c. repeat split; assumption.
Defined.

(** X8.  [Symlink] only allocates: past the read-only check it returns with
    one attributes object and one entry object added at the end of the
    heaps, every object that existed untouched.  It reads the clock twice
    and the random source not at all, and the new attributes keep the
    times, mode and target they were built with. *)
Theorem Symlink_frame wfs env dir req w :
  ReadOnly wfs = false ->
  exists res w' y,
    Symlink wfs env dir req w = Done res w' /\
    attrHeap w' = attrHeap w ++ [y] /\
    entryHeap w' = entryHeap w ++ [symlink_entry req (length (attrHeap w))] /\
    randomPos w' = randomPos w /\
    clockPos w' = S (S (clockPos w)) /\
    filer_pb.Mtime y = clock env (clockPos w) /\
    filer_pb.Crtime y = clock env (S (clockPos w)) /\
    filer_pb.FileMode y = symlink_mode wfs /\
    filer_pb.SymlinkTarget y = Target req.
Proof.
  intros Hro. rewrite (Symlink_run wfs env dir req w Hro).
  do 3 eexists. split; [reflexivity|].
  cbn [there_and_back after_events with_attrHeap symlink_built attrHeap
         entryHeap randomPos clockPos].
  rewrite !map_ids_new.
  repeat split.
Qed.

Lemma Symlink_frame_witness :
  exists res w' y,
    Symlink demo_wfs demo_env_refusing demo_dir demo_symlink_request demo_world
    = Done res w' /\
    attrHeap w' = [demo_attrs; demo_link_attrs; y] /\
    clockPos w' = 2%nat.
Proof.
  destruct (Symlink_frame demo_wfs demo_env_refusing demo_dir
              demo_symlink_request demo_world eq_refl)
    as (res & w' & y & HS & Ha & _ & _ & Hk & _).
  exists res, w', y. repeat split; assumption.
Defined.

(** ** The mode of a new symbolic link *)

Lemma symlink_mode_testbit wfs i :
  0 <= i ->
  Z.testbit (symlink_mode wfs) i
  = ((i <? 9) || (i =? 27)) && negb (Z.testbit (Umask wfs) i).
Proof.
  intros Hi. unfold symlink_mode, Go.and_not, Go.ModeSymlink.
  rewrite Z.ldiff_spec, Z.lor_spec. f_equal. f_equal.
  - change 511 with (Z.ones 9).
    destruct (Z.ltb_spec i 9).
    + apply Z.ones_spec_low. lia.
    + apply Z.ones_spec_high. lia.
  - rewrite Z.shiftl_1_l.
    destruct (Z.eqb_spec i 27) as [->|Hne].
    + apply Z.pow2_bits_true. lia.
    + apply Z.pow2_bits_false. lia.
Qed.

(** X9.  The mode [Symlink] gives a new link has no bit outside the nine
    permission bits and the symbolic-link bit, and none of the bits the
    umask masks; it is below [2^28], so the conversion to [uint32] loses
    nothing. *)
Theorem symlink_mode_bits wfs :
  (forall i, 0 <= i ->
     Z.testbit (symlink_mode wfs) i
     = ((i <? 9) || (i =? 27)) && negb (Z.testbit (Umask wfs) i)) /\
  Z.land (symlink_mode wfs) (Umask wfs) = 0 /\
  0 <= symlink_mode wfs < 2 ^ 28.
Proof.
  split; [intros i Hi; apply symlink_mode_testbit; exact Hi|]. split.
  - apply Z.bits_inj'. intros i Hi.
    rewrite Z.land_spec, Z.bits_0, symlink_mode_testbit by exact Hi.
    destruct (Z.testbit (Umask wfs) i), ((i <? 9) || (i =? 27)); reflexivity.
  - assert (Hnn : 0 <= symlink_mode wfs).
    { unfold symlink_mode, Go.and_not. apply Z.ldiff_nonneg. left.
      vm_compute. discriminate. }
    split; [exact Hnn|].
    destruct (Z.eq_dec (symlink_mode wfs) 0) as [H0|Hne]; [rewrite H0; lia|].
    assert (Hpos : 0 < symlink_mode wfs) by lia.
    apply Z.log2_lt_pow2; [exact Hpos|].
    destruct (Z.lt_ge_cases (Z.log2 (symlink_mode wfs)) 28) as [Hlt|Hge];
      [exact Hlt|exfalso].
    pose proof (Z.bit_log2 _ Hpos) as Hbit.
    rewrite symlink_mode_testbit in Hbit by lia.
    destruct (Z.ltb_spec (Z.log2 (symlink_mode wfs)) 9); [lia|].
    destruct (Z.eqb_spec (Z.log2 (symlink_mode wfs)) 27); [lia|].
    discriminate.
Qed.

(** ** Reading a link back *)

(** X10.  [Readlink] on the node [Symlink] returned, its entry resident,
    gives back the requested target, for every mapper and also when the
    filer refused the create; unless the umask masks the symbolic-link bit,
    in which case the entry [Symlink] built is no symbolic link and
    [Readlink] answers [EINVAL]. *)
Theorem Symlink_then_Readlink wfs env dir req w :
  ReadOnly wfs = false ->
  let file := {| fName := sNewName req; fDir := dir;
                 fEntry := Some (length (entryHeap w)) |} in
  loader env file = LoadResident ->
  exists err w',
    Symlink wfs env dir req w = Done (Some (NodeFile file), err) w' /\
    Readlink env file w'
    = Done (if Z.testbit (Umask wfs) 27
            then (""%string, Some EINVAL)
            else (Target req, None)) w'.
Proof.
  intros Hro file Hres.
  rewrite (Symlink_run wfs env dir req w Hro).
  set (x := symlink_exchange _ _ _ _).
  set (w' := there_and_back _ _ _ _).
  exists x.1, w'. split; [reflexivity|].
  assert (Hload : maybeLoadEntry env file w'
                  = Done (file, Some (length (entryHeap w)), None) w').
  { unfold maybeLoadEntry. rewrite Hres. reflexivity. }
  set (y := translate (FilerToLocal (mapper wfs))
              (translate (LocalToFiler (mapper wfs))
                 (symlink_attributes wfs env w req))).
  rewrite (Readlink_run env file w' file (length (entryHeap w)) w'
             (symlink_entry req (length (attrHeap w))) (length (attrHeap w)) y
             Hload).
  - change (filer_pb.FileMode y) with (symlink_mode wfs).
    change (filer_pb.SymlinkTarget y) with (Target req).
    rewrite symlink_mode_testbit by lia.
    destruct (Z.testbit (Umask wfs) 27); reflexivity.
  - unfold w'. cbn. apply lookup_app_length.
  - reflexivity.
  - unfold w'.
    cbn [there_and_back after_events with_attrHeap symlink_built attrHeap].
    rewrite !map_ids_new. apply lookup_app_length.
Qed.

Lemma Symlink_then_Readlink_witness :
  (exists err w',
      Symlink demo_wfs demo_env_refusing demo_dir demo_symlink_request demo_world
      = Done (Some (NodeFile {| fName := "link1"; fDir := demo_dir;
                                fEntry := Some 2%nat |}), err) w' /\
      Readlink demo_env_refusing
               {| fName := "link1"; fDir := demo_dir; fEntry := Some 2%nat |} w'
      = Done ("/target/path"%string, None) w') /\
  (exists err w',
      Symlink demo_wfs_masking demo_env demo_dir demo_symlink_request demo_world
      = Done (Some (NodeFile {| fName := "link1"; fDir := demo_dir;
                                fEntry := Some 2%nat |}), err) w' /\
      Readlink demo_env
               {| fName := "link1"; fDir := demo_dir; fEntry := Some 2%nat |} w'
      = Done (""%string, Some EINVAL) w').
Proof.
  split.
  - exact (Symlink_then_Readlink demo_wfs demo_env_refusing demo_dir
             demo_symlink_request demo_world eq_refl eq_refl).
  - exact (Symlink_then_Readlink demo_wfs_masking demo_env demo_dir
             demo_symlink_request demo_world eq_refl eq_refl).
Defined.

(** X11.  [Readlink] hands a load error on as it is, with the empty string.
    It has none of the nil checks [Link] has: when the load reports no
    error and no entry, or an entry without attributes, [Readlink] panics
    on the nil pointer instead of returning an error. *)
Theorem Readlink_unchecked env file w f1 r err w1 :
  maybeLoadEntry env file w = Done (f1, r, err) w1 ->
  (forall e, err = Some e ->
             Readlink env file w = Done (""%string, Some e) w1) /\
  (err = None -> r = None -> Readlink env file w = Panic w1) /\
  (forall p (e : EntryObj),
      err = None -> r = Some p -> entryHeap w1 !! p = Some e ->
      filer_pb.Attributes e = None ->
      Readlink env file w = Panic w1).
Proof.
  intros Hload. split; [|split].
  - intros e ->. unfold Readlink. rewrite (bind_run _ _ _ _ _ Hload).
    reflexivity.
  - intros -> ->. unfold Readlink. rewrite (bind_run _ _ _ _ _ Hload).
    reflexivity.
  - intros p e -> -> He Ha. unfold Readlink.
    rewrite (bind_run _ _ _ _ _ Hload). cbn [fst snd].
    unfold bind, read_entry. rewrite He, Ha. reflexivity.
Qed.

Lemma Readlink_unchecked_witness :
  Readlink demo_env_load_error demo_file demo_world
  = Done (""%string, Some (ErrOther "lookup failed")) demo_world /\
  Readlink demo_env_nothing demo_file demo_world = Panic demo_world /\
  Readlink demo_env demo_bare_file demo_bare_world = Panic demo_bare_world.
Proof.
  split; [|split].
  - apply (Readlink_unchecked demo_env_load_error demo_file demo_world
             demo_file None (Some (ErrOther "lookup failed")) demo_world eq_refl).
    reflexivity.
  - apply (Readlink_unchecked demo_env_nothing demo_file demo_world
             (set_fEntry demo_file None) None None demo_world eq_refl);
      reflexivity.
  - apply (proj2 (proj2 (Readlink_unchecked demo_env demo_bare_file
                           demo_bare_world demo_bare_file (Some 0%nat) None
                           demo_bare_world eq_refl))
             0%nat demo_bare_entry); reflexivity.
Defined.

(** X12.  A hard link answers [Readlink] as the existing name does.  After a
    successful [Link], with the entries resident, [Readlink] on the node
    [Link] returned and [Readlink] on the source node give the same result,
    the one the source's mode and target stood for before the call: the
    two entries share one attributes object, and the identifier mapping
    leaves mode and target alone. *)
Theorem Link_then_Readlink wfs env dir req old w p (e : EntryObj) a x nd w' :
  (forall f, loader env f = LoadResident) ->
  fEntry old = Some p ->
  entryHeap w !! p = Some e ->
  filer_pb.Attributes e = Some a ->
  attrHeap w !! a = Some x ->
  Link wfs env dir req (NodeFile old) w = Done (Some nd, None) w' ->
  let answer := if Z.testbit (filer_pb.FileMode x) 27
                then (filer_pb.SymlinkTarget x, None)
                else (""%string, Some EINVAL) in
  exists file,
    nd = NodeFile file /\
    fName file = NewName req /\ fDir file = dir /\
    Readlink env file w' = Done answer w' /\
    Readlink env old w' = Done answer w'.
Proof.
  intros Hres Hp He Ha Hx HL answer.
  assert (Hload : maybeLoadEntry env old w = Done (old, fEntry old, None) w).
  { unfold maybeLoadEntry. rewrite Hres. reflexivity. }
  assert (Hox : attrs_at (attrHeap w) (filer_pb.Attributes e) = Some (Some x)).
  { rewrite Ha. cbn. rewrite Hx. reflexivity. }
  destruct (ReadOnly wfs) eqn:Hro.
  { rewrite (Link_read_only wfs env dir req _ w Hro) in HL. discriminate. }
  rewrite (Link_run wfs env dir req old w old _ w p e (Some x)
             Hro Hload Hp He Hox) in HL.
  set (xc := link_exchange _ _ _ _ _ _) in HL.
  set (w4 := there_and_back _ _ _ _) in HL.
  unfold link_return in HL. destruct xc.1; [discriminate|].
  unfold maybeLoadEntry in HL. rewrite Hres in HL.
  injection HL as <- <-.
  set (file := {| fName := NewName req; fDir := dir;
                  fEntry := Some (length (entryHeap w)) |}).
  exists file. split; [reflexivity|]. split; [reflexivity|].
  split; [reflexivity|].
  assert (Hlt : (p < length (entryHeap w))%nat) by (eapply lookup_lt_Some; eauto).
  set (y := translate (FilerToLocal (mapper wfs))
              (translate (LocalToFiler (mapper wfs)) x)).
  assert (Hy : attrHeap w4 !! a = Some y).
  { unfold w4. cbn [there_and_back after_events with_attrHeap with_entryHeap
                      after_hardlink_mode attrHeap].
    rewrite Ha. apply map_ids_at. apply map_ids_at. exact Hx. }
  assert (Hattr : filer_pb.Attributes (stamp env w e) = Some a).
  { rewrite <- Ha. apply (stamp_keeps env w e). }
  split.
  - assert (Hl : maybeLoadEntry env file w4
                 = Done (file, Some (length (entryHeap w)), None) w4).
    { unfold maybeLoadEntry. rewrite Hres. reflexivity. }
    rewrite (Readlink_run env file w4 file _ w4
               (link_entry req (stamp env w e)) a y Hl).
    + reflexivity.
    + unfold w4. cbn.
      rewrite <- (length_insert (entryHeap w) p (stamp env w e)).
      apply lookup_app_length.
    + exact Hattr.
    + exact Hy.
  - assert (Hl : maybeLoadEntry env old w4 = Done (old, Some p, None) w4).
    { unfold maybeLoadEntry. rewrite Hres, Hp. reflexivity. }
    rewrite (Readlink_run env old w4 old _ w4 (stamp env w e) a y Hl).
    + reflexivity.
    + unfold w4. cbn. apply lookup_app_l_Some.
      apply list_lookup_insert_eq. exact Hlt.
    + exact Hattr.
    + exact Hy.
Qed.

Lemma Link_then_Readlink_witness :
  exists w' file,
    Link demo_wfs demo_env demo_dir demo_link_request (NodeFile demo_link_file)
         demo_world = Done (Some (NodeFile file), None) w' /\
    Readlink demo_env file w' = Done ("/target/path"%string, None) w'.
Proof.
  destruct (Link demo_wfs demo_env demo_dir demo_link_request
                 (NodeFile demo_link_file) demo_world)
    as [[[nd|] [err|]] w'|w'|] eqn:HL;
    try (vm_compute in HL; discriminate).
  destruct (Link_then_Readlink demo_wfs demo_env demo_dir demo_link_request
              demo_link_file demo_world 1%nat demo_link_entry 1%nat
              demo_link_attrs nd w'
              (fun _ => eq_refl) eq_refl eq_refl eq_refl eq_refl HL)
    as (file & -> & _ & _ & HR & _).
  exists w', file. split; [reflexivity | exact HR].
Defined.

(** ** Linking an entry that is already hard-linked *)

(** X13.  A successful [Link] on a source entry that already has a
    [HardLinkId] keeps that identifier for both entries it sends and reads
    nothing from the random source.  The counter it sends is the stored one
    plus one in [int32] arithmetic: one more below the largest [int32], and
    the smallest [int32] at the largest. *)
Theorem Link_reuses_identifier wfs env dir req f w f1 r w1 p (e : EntryObj) nd w' :
  maybeLoadEntry env f w = Done (f1, r, None) w1 ->
  fEntry f1 = Some p ->
  entryHeap w1 !! p = Some e ->
  filer_pb.HardLinkId e <> [] ->
  Link wfs env dir req (NodeFile f) w = Done (Some nd, None) w' ->
  let c := filer_pb.HardLinkCounter e in
  exists mo mn,
    sent_entries (drop (length (trace w)) (trace w')) = [mo; mn] /\
    filer_pb.HardLinkId mo = filer_pb.HardLinkId e /\
    filer_pb.HardLinkId mn = filer_pb.HardLinkId e /\
    filer_pb.HardLinkCounter mo = Go.wrap_int32 (c + 1) /\
    filer_pb.HardLinkCounter mn = Go.wrap_int32 (c + 1) /\
    randomPos w' = randomPos w /\
    (- 2 ^ 31 <= c < 2 ^ 31 - 1 -> Go.wrap_int32 (c + 1) = c + 1) /\
    (c = 2 ^ 31 - 1 -> Go.wrap_int32 (c + 1) = - 2 ^ 31).
Proof.
  intros Hload Hp He Hid HL c.
  destruct (ReadOnly wfs) eqn:Hro.
  { rewrite (Link_read_only wfs env dir req _ w Hro) in HL. discriminate. }
  destruct (attrs_at (attrHeap w1) (filer_pb.Attributes e)) as [ox|] eqn:Hx.
  2:{ rewrite (Link_dangling wfs env dir req f w f1 r w1 p e Hro Hload Hp He Hx)
        in HL. discriminate. }
  destruct (Link_outcome wfs env dir req f w f1 r w1 p e ox Hro Hload Hp He Hx)
    as (res & w'' & HL' & Ht & _ & _ & _ & Hr & _ & _ & Hok).
  rewrite HL' in HL. injection HL as -> ->.
  specialize (Hok nd eq_refl).
  destruct (maybeLoadEntry_total env f w)
    as (f1' & r' & err' & w1' & Hl & _ & _ & Hr1 & _).
  rewrite Hload in Hl. injection Hl as <- <- <- <-.
  destruct (stamp_again env w1 e Hid) as [Hsid Hsc].
  set (sent := translate (LocalToFiler (mapper wfs)) <$> ox) in *.
  set (mo := message (stamp env w1 e) sent) in *.
  set (mn := message (link_entry req (stamp env w1 e)) sent) in *.
  unfold link_exchange in Ht, Hok.
  destruct (filer env (CallUpdateEntry _ mo _)); [discriminate|].
  destruct (filer env (CallCreateEntry _ mn _)); [discriminate|].
  cbn [snd] in Ht.
  exists mo, mn. rewrite Ht, drop_app_length.
  split; [reflexivity|]. split; [exact Hsid|]. split; [exact Hsid|].
  split; [exact Hsc|]. split; [exact Hsc|]. split.
  - rewrite Hr, Hr1. destruct (filer_pb.HardLinkId e); [congruence|reflexivity].
  - split.
    + intros Hc. apply wrap_int32_small. lia.
    + intros ->. reflexivity.
Qed.

Lemma Link_reuses_identifier_witness :
  exists w' mo mn,
    sent_entries (trace w') = [mo; mn] /\
    filer_pb.HardLinkId mn = [Byte.x2a; Byte.x01] /\
    filer_pb.HardLinkCounter mn = - 2147483648 /\
    randomPos w' = 5%nat.
Proof.
  destruct (Link demo_wfs demo_env demo_dir demo_link_request
                 (NodeFile demo_file) demo_linked_world)
    as [[[nd|] [err|]] w'|w'|] eqn:HL;
    try (vm_compute in HL; discriminate).
  destruct (Link_reuses_identifier demo_wfs demo_env demo_dir demo_link_request
              demo_file demo_linked_world demo_file (Some 0%nat)
              demo_linked_world 0%nat demo_linked_entry nd w'
              eq_refl eq_refl eq_refl ltac:(discriminate) HL)
    as (mo & mn & Hs & _ & Hn & _ & Hc & Hr & _ & _).
  exists w', mo, mn. rewrite drop_0 in Hs. repeat split; assumption.
Defined.
